(** * Layer graphs assembled by [networks.py]

    [networks.py] wires layers of an external deep-learning framework into
    generators (U-Net, ResNet) and discriminators (PatchGAN, PixelGAN).  The
    builders are embedded here as functions that return a symbolic description
    of the graph they assemble: every layer constructor call of the source
    becomes a constructor of [layer] that records the arguments exactly as the
    source passes them, and applying a layer to a tensor becomes a node of
    [tensor].

    Python raises and Python returns are kept apart ([Raise] against [Ok]);
    so are the dynamically typed values the source can bind to one name (a
    layer class or an exception instance, a tensor or a layer object, an int
    or a float).  Where the source itself fixes an argument the framework
    refuses (the four-element padding tuples, a boolean as activation), the
    refusal is part of the embedding, as is the refusal to call a layer on
    something that is no tensor.  Validation of the sizes and counts the
    caller supplies, and shape checking, are not. *)

From Stdlib Require Import ZArith List String Ascii Bool Lia QArith.
Import ListNotations.

Local Open Scope string_scope.
Local Open Scope Z_scope.
Local Open Scope list_scope.

(** ** Python values and exceptions *)

Inductive exn : Type :=
| NotImplementedError (msg : string)
| ImportError (msg : string)
| TypeError (msg : string)
| ValueError (msg : string)
| IndexError (msg : string).

(** Outcome of running a piece of Python: a value, or a raised exception. *)
Inductive result (A : Type) : Type :=
| Ok (a : A)
| Raise (e : exn).

Arguments Ok {A} a.
Arguments Raise {A} e.

Definition bind {A B : Type} (r : result A) (k : A -> result B) : result B :=
  match r with
  | Ok a => k a
  | Raise e => Raise e
  end.

Notation "x <- r ;; k" := (bind r (fun x => k))
  (at level 61, r at next level, right associativity).

Definition raises {A : Type} (r : result A) : Prop := exists e, r = Raise e.

(** A Python number as the builders meet it.  Floats are never computed with:
    [np_log2 x] stands for [np.log2(x)], and [scaled_pow2 k n] for
    [k * 2 ** n] with [n < 0], where Python's [**] leaves the integers. *)
Inductive pyfloat : Type :=
| np_log2 (x : Z)
| scaled_pow2 (k n : Z).

Inductive pynum : Type :=
| PyInt (z : Z)
| PyFloat (f : pyfloat).

(** A keyword argument whose value the source takes from a variable. *)
Inductive pyarg : Type :=
| PNone
| PStr (s : string)
| PBool (b : bool).

(** The part of the process the builders read: [backend.image_data_format()]
    and whether [keras_contrib] can be imported. *)
Record backend : Type := {
  image_data_format : string;
  keras_contrib_installed : bool }.

(** ** Layers, tensors, models *)

Inductive norm_class : Type :=
| BatchNormalization
| InstanceNormalization.

(** Arguments of [Conv2D] and [Conv2DTranspose].  A keyword the source leaves
    out is [None] here, so the framework's default applies to it. *)
Record conv_args : Type := {
  c_filters : pynum;
  c_kernel_size : Z * Z;
  c_strides : option (Z * Z);
  c_padding : option string;
  c_use_bias : option bool;
  c_activation : option pyarg }.

Inductive layer : Type :=
| Conv2D (a : conv_args)
| Conv2DTranspose (a : conv_args)
| Normalization (c : norm_class) (axis : Z)
| LeakyReLU (alpha : Q)
| Activation (name : string)
| Dropout (rate : Q)
| ZeroPadding2D (pad : Z * Z * Z * Z)
| Add
| Concatenate (axis : Z).

(** A symbolic tensor is the history of layer calls that produced it. *)
Inductive tensor : Type :=
| Input (shape : list Z) (name : option string)
| Call (l : layer) (x : tensor)
| Merge (l : layer) (x y : tensor).

Inductive seq_item : Type :=
| AddedTensor (t : tensor)
| AddedLayer (l : layer).

Inductive model : Type :=
| Model (inputs outputs : tensor)
| Sequential (items : list seq_item).

(** What a builder hands back with [return]: the source returns exception
    instances in two places. *)
Inductive pyval : Type :=
| VModel (m : model)
| VExc (e : exn).

(** A name that holds a tensor on one path and a layer object on another. *)
Inductive pyobj : Type :=
| OTensor (t : tensor)
| OLayer (l : layer).

(** What [get_norm_layer] returns: a layer class or an exception instance. *)
Inductive norm_value : Type :=
| NormClass (c : norm_class)
| NormExc (e : exn).

(** ** Python primitives used by the builders *)

Definition dquote : string := String (ascii_of_nat 34) EmptyString.

(** [range(lo, hi)] over integers. *)
Definition py_range (lo hi : Z) : list Z :=
  map (fun k => lo + Z.of_nat k) (seq 0 (Z.to_nat (hi - lo))).

(** [range(lo, hi)] when [hi] may have been rebound to a float. *)
Definition py_range_num (lo : Z) (hi : pynum) : result (list Z) :=
  match hi with
  | PyInt h => Ok (py_range lo h)
  | PyFloat _ => Raise (TypeError "'float' object cannot be interpreted as an integer")
  end.

(** [xs[i]], negative indices counting from the end. *)
Definition py_index {A : Type} (xs : list A) (i : Z) : result A :=
  let j := if i <? 0 then Z.of_nat (List.length xs) + i else i in
  if j <? 0 then Raise (IndexError "index out of range")
  else match nth_error xs (Z.to_nat j) with
       | Some x => Ok x
       | None => Raise (IndexError "index out of range")
       end.

(** [k * min(2 ** n, 8)]: for [n < 0] the power is a float below 8. *)
Definition times_min_pow2 (k n : Z) : pynum :=
  if n <? 0 then PyFloat (scaled_pow2 k n) else PyInt (k * Z.min (2 ^ n) 8).

(** Calling a layer object on its input: the framework accepts tensors only. *)
Definition call_layer (l : layer) (x : pyobj) : result tensor :=
  match x with
  | OTensor t => Ok (Call l t)
  | OLayer _ => Raise (TypeError "Inputs to a layer should be tensors")
  end.

(** [norm_layer(axis=channel_axis)]: instantiating what [get_norm_layer]
    returned.  An exception instance is not callable. *)
Definition new_norm (norm_layer : norm_value) (axis : Z) : result layer :=
  match norm_layer with
  | NormClass c => Ok (Normalization c axis)
  | NormExc _ => Raise (TypeError "'NotImplementedError' object is not callable")
  end.

(** [ZeroPadding2D(padding)] for a tuple of integers.  The framework takes
    an int, a tuple of two ints or a tuple of two pairs: [(p_h, p_w)] pads by
    [p_h] above and below and by [p_w] left and right, and a tuple of any
    other length is refused when the layer is created. *)
Definition new_zero_padding (padding : list Z) : result layer :=
  match padding with
  | [p_h; p_w] => Ok (ZeroPadding2D (p_h, p_h, p_w, p_w))
  | _ => Raise (ValueError "`padding` should have two elements")
  end.

(** [Conv2D(..., activation=a)]: the framework looks the activation up when
    the layer is created.  [None] and the name of an activation are taken, a
    boolean is neither. *)
Definition new_conv2d (a : conv_args) : result layer :=
  match c_activation a with
  | Some (PBool _) => Raise (TypeError "Could not interpret activation function identifier")
  | _ => Ok (Conv2D a)
  end.

(** ** [get_norm_layer] *)

Definition get_norm_layer (env : backend) (layer_name : string) : result norm_value :=
  if String.eqb layer_name "batch" then Ok (NormClass BatchNormalization)
  else if String.eqb layer_name "instance" then
    if keras_contrib_installed env then Ok (NormClass InstanceNormalization)
    else Raise (ImportError
      ("keras_contrib is required to use InstanceNormalization layers. Install keras_contrib or "
       ++ "switch normalization to " ++ dquote ++ "batch" ++ dquote ++ ".")%string)
  else Ok (NormExc (NotImplementedError
      ("Normalization layer name [" ++ layer_name ++ "] is not recognized.")%string)).

(** Shape and axis conventions shared by the three top-level builders. *)
Definition input_shape_of (env : backend) (patch_size : list Z) (input_nc : Z) : list Z :=
  if String.eqb (image_data_format env) "channels_first" then [input_nc] ++ patch_size
  else patch_size ++ [input_nc].

Definition channel_axis_of (env : backend) : Z :=
  if String.eqb (image_data_format env) "channels_first" then 1 else -1.

(** ** [build_unet] *)

Section UNet.

Variables (init_num_filters : Z) (use_bias : bool).
Variables (norm_layer : norm_value) (channel_axis : Z).
Variables (use_dropout : bool) (dropout_rate : Q) (autoencoder : bool).

(** The keyword set every convolution of [build_unet] is created with:
    [kernel_size], [strides=(2, 2)], [padding='same'], [use_bias=use_bias]. *)
Definition unet_conv (n_filters : Z) : conv_args :=
  {| c_filters := PyInt n_filters; c_kernel_size := (4, 4); c_strides := Some (2, 2);
     c_padding := Some "same"; c_use_bias := Some use_bias; c_activation := None |}.

(** [for i in range(1, n_levels - 1)]: the encoder below the first
    convolution; each normalized map is appended to [nodes_for_concat]. *)
Fixpoint unet_encoder (idx : list Z) (prev : tensor) (nodes_for_concat : list tensor)
  : result (tensor * list tensor) :=
  match idx with
  | [] => Ok (prev, nodes_for_concat)
  | i :: idx' =>
      let relu := Call (LeakyReLU 0.2) prev in
      let conv := Call (Conv2D (unet_conv (init_num_filters * Z.max (2 ^ i) 8))) relu in
      norm <- new_norm norm_layer channel_axis ;;
      let prev := Call norm conv in
      unet_encoder idx' prev (nodes_for_concat ++ [prev])
  end.

(** [for i in reversed(range(1, n_levels - 1))]: the decoder.  With
    [autoencoder] off the source calls
    [concatenate(norm, [nodes_for_concat[i]], axis=channel_axis)]: the list is
    the second positional argument of [concatenate(inputs, axis=-1)], so
    [axis] is bound twice and Python refuses the call. *)
Fixpoint unet_decoder (idx : list Z) (nodes_for_concat : list tensor) (deconv : tensor)
  : result tensor :=
  match idx with
  | [] => Ok deconv
  | i :: idx' =>
      nl <- new_norm norm_layer channel_axis ;;
      let norm := Call nl deconv in
      let norm := if use_dropout then Call (Dropout dropout_rate) norm else norm in
      norm <- (if negb autoencoder then
                 _ <- py_index nodes_for_concat i ;;
                 Raise (TypeError "concatenate() got multiple values for argument 'axis'")
               else Ok norm) ;;
      let relu := Call (Activation "relu") norm in
      unet_decoder idx' nodes_for_concat
        (Call (Conv2DTranspose (unet_conv (init_num_filters * Z.max (2 ^ i) 8))) relu)
  end.

End UNet.

(** [2 ** n_levels - 1] and [2 ** n_levels - 2] are integers for
    [n_levels >= 0]; for a negative [n_levels] Python computes a float below
    8, [max] picks the integer 8, and so does [Z.max] since [2 ^ n = 0]. *)
Definition build_unet (env : backend) (patch_size : list Z) (input_nc output_nc : Z)
    (init_num_filters : Z) (norm_layer : string) (n_levels : Z) (use_dropout : bool)
    (dropout_rate : Q) (autoencoder : bool) : result model :=
  let input_shape := input_shape_of env patch_size input_nc in
  let channel_axis := channel_axis_of env in
  let use_bias := String.eqb norm_layer "instance" in
  norm_layer <- get_norm_layer env norm_layer ;;
  let input_img := Input input_shape (Some "input1") in
  let prev := Call (Conv2D (unet_conv use_bias init_num_filters)) input_img in
  enc <- unet_encoder init_num_filters use_bias norm_layer channel_axis
           (py_range 1 (n_levels - 1)) prev [prev] ;;
  let (prev, nodes_for_concat) := (enc : tensor * list tensor) in
  let relu := Call (LeakyReLU 0.2) prev in
  let conv := Call (Conv2D (unet_conv use_bias
                      (init_num_filters * Z.max (2 ^ n_levels - 1) 8))) relu in
  let relu := Call (Activation "relu") conv in
  let deconv := Call (Conv2DTranspose (unet_conv use_bias
                      (init_num_filters * Z.max (2 ^ n_levels - 2) 8))) relu in
  deconv <- unet_decoder init_num_filters use_bias norm_layer channel_axis
              use_dropout dropout_rate autoencoder
              (rev (py_range 1 (n_levels - 1))) nodes_for_concat deconv ;;
  nl <- new_norm norm_layer channel_axis ;;
  let norm := Call nl deconv in
  norm <- (if negb autoencoder then
             node <- py_index nodes_for_concat 0 ;;
             Ok (Merge (Concatenate channel_axis) norm node)
           else Ok norm) ;;
  let relu := Call (Activation "relu") norm in
  let conv := Call (Conv2D (unet_conv use_bias output_nc)) relu in
  let act := Call (Activation "tanh") conv in
  Ok (Model input_img act).

(** ** [build_conv_block] and [build_resnet] *)

(** [Conv2D(n, kernel_size, use_bias=use_bias)]: no strides, no padding. *)
Definition plain_conv (n_filters : Z) (kernel : Z * Z) (use_bias : bool) : conv_args :=
  {| c_filters := PyInt n_filters; c_kernel_size := kernel; c_strides := None;
     c_padding := None; c_use_bias := Some use_bias; c_activation := None |}.

(** [Conv2D(n, kernel_size, strides=(2, 2), padding='same')], also the
    keywords of the [Conv2DTranspose] stages: [use_bias] is not passed. *)
Definition strided_conv (n_filters : Z) (kernel : Z * Z) : conv_args :=
  {| c_filters := PyInt n_filters; c_kernel_size := kernel; c_strides := Some (2, 2);
     c_padding := Some "same"; c_use_bias := None; c_activation := None |}.

(** [padding_layer] is the class handed in by [build_resnet]; the block
    creates a padding layer from the tuple [(1, 1, 1, 1)], twice.  With
    [use_dropout] set, [act] is rebound to the layer object
    [Dropout(dropout_rate)], which the second padding layer is then called
    on. *)
Definition build_conv_block (previous : tensor) (num_filters : Z) (kernel_size : Z * Z)
    (norm_layer : norm_value) (channel_axis : Z) (padding_layer : list Z -> result layer)
    (use_dropout : bool) (dropout_rate : Q) (use_bias : bool) : result tensor :=
  pl <- padding_layer [1; 1; 1; 1] ;;
  pad <- call_layer pl (OTensor previous) ;;
  let conv := Call (Conv2D (plain_conv num_filters kernel_size use_bias)) pad in
  nl <- new_norm norm_layer channel_axis ;;
  let norm := Call nl conv in
  let act := OTensor (Call (Activation "relu") norm) in
  let act := if use_dropout then OLayer (Dropout dropout_rate) else act in
  pl <- padding_layer [1; 1; 1; 1] ;;
  pad <- call_layer pl act ;;
  let conv := Call (Conv2D (plain_conv num_filters kernel_size use_bias)) pad in
  nl <- new_norm norm_layer channel_axis ;;
  let norm := Call nl conv in
  Ok (Merge Add previous norm).

Definition outer_kernel_size : Z * Z := (7, 7).

(** [math.ceil(x / 2)] and [math.floor(x / 2)] under true division. *)
Definition ceil_half (x : Z) : Z := - ((- x) / 2).
Definition floor_half (x : Z) : Z := x / 2.

(** A tuple of four integers. *)
Definition outer_padding_size : list Z :=
  [ceil_half (fst outer_kernel_size - 1); floor_half (fst outer_kernel_size - 1);
   ceil_half (snd outer_kernel_size - 1); floor_half (snd outer_kernel_size - 1)].

Definition n_downsamples : Z := 2.

Section ResNet.

Variables (init_num_filters : Z) (kernel_size : Z * Z) (use_bias : bool).
Variables (norm_layer : norm_value) (channel_axis : Z).
Variables (padding_layer : list Z -> result layer).
Variables (use_dropout : bool) (dropout_rate : Q).

(** [for i in range(n_downsamples)] *)
Fixpoint resnet_down (idx : list Z) (act : tensor) : result tensor :=
  match idx with
  | [] => Ok act
  | i :: idx' =>
      let conv := Call (Conv2D (strided_conv (init_num_filters * 2 ^ (i + 1)) kernel_size)) act in
      nl <- new_norm norm_layer channel_axis ;;
      let norm := Call nl conv in
      resnet_down idx' (Call (Activation "relu") norm)
  end.

(** [for i in range(n_blocks)] *)
Fixpoint resnet_blocks (idx : list Z) (act : tensor) : result tensor :=
  match idx with
  | [] => Ok act
  | _ :: idx' =>
      act <- build_conv_block act (init_num_filters * 2 ^ n_downsamples) kernel_size norm_layer
               channel_axis padding_layer use_dropout dropout_rate use_bias ;;
      resnet_blocks idx' act
  end.

(** [for i in reversed(range(n_blocks))] *)
Fixpoint resnet_up (idx : list Z) (act : tensor) : result tensor :=
  match idx with
  | [] => Ok act
  | i :: idx' =>
      let conv :=
        Call (Conv2DTranspose (strided_conv (init_num_filters * 2 ^ (i + 1)) kernel_size)) act in
      nl <- new_norm norm_layer channel_axis ;;
      let norm := Call nl conv in
      resnet_up idx' (Call (Activation "relu") norm)
  end.

End ResNet.

(** The padding layers are created from the four-element tuple
    [outer_padding_size]: the first of them right after the input, before
    any convolution or normalization layer exists. *)
Definition build_resnet (env : backend) (patch_size : list Z) (input_nc output_nc : Z)
    (init_num_filters : Z) (norm_layer padding_layer : string) (n_blocks : Z)
    (use_dropout : bool) (dropout_rate : Q) : result pyval :=
  let kernel_size := (3, 3) in
  let input_shape := input_shape_of env patch_size input_nc in
  let channel_axis := channel_axis_of env in
  let use_bias := String.eqb norm_layer "instance" in
  norm_layer <- get_norm_layer env norm_layer ;;
  if String.eqb padding_layer "zero" then
    let padding_layer := new_zero_padding in
    let input_img := Input input_shape (Some "input1") in
    pl <- padding_layer outer_padding_size ;;
    let pad := Call pl input_img in
    let conv := Call (Conv2D (plain_conv init_num_filters outer_kernel_size use_bias)) pad in
    nl <- new_norm norm_layer channel_axis ;;
    let norm := Call nl conv in
    let act := Call (Activation "relu") norm in
    act <- resnet_down init_num_filters kernel_size norm_layer channel_axis
             (py_range 0 n_downsamples) act ;;
    act <- resnet_blocks init_num_filters kernel_size use_bias norm_layer channel_axis
             padding_layer use_dropout dropout_rate (py_range 0 n_blocks) act ;;
    act <- resnet_up init_num_filters kernel_size norm_layer channel_axis
             (rev (py_range 0 n_blocks)) act ;;
    pl <- padding_layer outer_padding_size ;;
    let pad := Call pl act in
    let conv := Call (Conv2D (plain_conv output_nc outer_kernel_size use_bias)) pad in
    let act := Call (Activation "tanh") conv in
    Ok (VModel (Model input_img act))
  else Ok (VExc (NotImplementedError "Only zero padding is currently supported.")).

(** ** Discriminators *)

(** [model.add(x)] on a [Sequential] under construction. *)
Definition model_add (items : list seq_item) (x : seq_item) : list seq_item :=
  items ++ [x].

(** [Conv2D(n, (1, 1), padding='same', use_bias=use_bias[, activation=a])] *)
Definition pixel_conv (n_filters : Z) (use_bias : bool) (act : option pyarg) : conv_args :=
  {| c_filters := PyInt n_filters; c_kernel_size := (1, 1); c_strides := None;
     c_padding := Some "same"; c_use_bias := Some use_bias; c_activation := act |}.

(** The last convolution is the one created with an [activation] keyword. *)
Definition build_pixel_gan (input_shape : list Z) (init_num_filters : Z)
    (norm_layer : norm_value) (channel_axis : Z) (use_bias : bool)
    (final_activation : pyarg) : result model :=
  let model := [] in
  let model := model_add model (AddedTensor (Input input_shape None)) in
  let model := model_add model (AddedLayer (Conv2D (pixel_conv init_num_filters use_bias None))) in
  let model := model_add model (AddedLayer (LeakyReLU 0.2)) in
  let model :=
    model_add model (AddedLayer (Conv2D (pixel_conv (init_num_filters * 2) use_bias None))) in
  nl <- new_norm norm_layer channel_axis ;;
  let model := model_add model (AddedLayer nl) in
  let model := model_add model (AddedLayer (LeakyReLU 0.2)) in
  conv <- new_conv2d (pixel_conv (init_num_filters * 2) use_bias (Some final_activation)) ;;
  let model := model_add model (AddedLayer conv) in
  Ok (Sequential model).

Section NLayer.

Variables (init_num_filters : Z) (kernel_size : Z * Z) (use_bias : bool).
Variables (norm_layer : norm_value) (channel_axis : Z).
Variables (use_dropout : bool) (dropout_rate : Q).

(** [Conv2D(f, kernel_size, strides=(2, 2), padding='same', use_bias=use_bias)] *)
Definition disc_conv (f : pynum) (s : option (Z * Z)) : conv_args :=
  {| c_filters := f; c_kernel_size := kernel_size; c_strides := s;
     c_padding := Some "same"; c_use_bias := Some use_bias; c_activation := None |}.

(** [for n in range(1, n_layers)] *)
Fixpoint nlayer_loop (idx : list Z) (model : list seq_item) : result (list seq_item) :=
  match idx with
  | [] => Ok model
  | n :: idx' =>
      let model :=
        model_add model
          (AddedLayer (Conv2D (disc_conv (PyInt (init_num_filters * Z.min (2 ^ n) 8))
                                 (Some (2, 2))))) in
      nl <- new_norm norm_layer channel_axis ;;
      let model := model_add model (AddedLayer nl) in
      let model :=
        if use_dropout then model_add model (AddedLayer (Dropout dropout_rate)) else model in
      let model := model_add model (AddedLayer (LeakyReLU 0.2)) in
      nlayer_loop idx' model
  end.

End NLayer.

(** The final convolution:
    [Conv2D(1, kernel_size, padding='same', activation=final_activation)]. *)
Definition final_conv (kernel_size : Z * Z) (final_activation : pyarg) : conv_args :=
  {| c_filters := PyInt 1; c_kernel_size := kernel_size; c_strides := None;
     c_padding := Some "same"; c_use_bias := None;
     c_activation := Some final_activation |}.

(** [n_layers] is an integer on entry; the image-wise branch rebinds it to
    [np.log2(patch_size[0])], a float, which [range(1, n_layers)] refuses.
    The match after the range recovers the integer for the later
    [2 ** n_layers]; its float branch is never reached.  The pixel-wise
    branch hands [use_sigmoid] itself, not [final_activation], to
    [build_pixel_gan]. *)
Definition build_nlayer_discriminator (env : backend) (patch_size : list Z) (input_nc : Z)
    (init_num_filters : Z) (n_layers : Z) (norm_layer : string) (use_sigmoid : bool)
    (use_dropout : bool) (dropout_rate : Q) : result model :=
  let kernel_size := (4, 4) in
  let input_shape := input_shape_of env patch_size input_nc in
  let channel_axis := channel_axis_of env in
  let use_bias := String.eqb norm_layer "instance" in
  norm_layer <- get_norm_layer env norm_layer ;;
  let final_activation := if use_sigmoid then PStr "sigmoid" else PNone in
  if n_layers =? 0 then
    build_pixel_gan input_shape init_num_filters norm_layer channel_axis use_bias
      (PBool use_sigmoid)
  else
    n_layers <- (if n_layers =? -1 then
                   p <- py_index patch_size 0 ;; Ok (PyFloat (np_log2 p))
                 else Ok (PyInt n_layers)) ;;
    let model := [] in
    let model := model_add model (AddedTensor (Input input_shape None)) in
    let model :=
      model_add model
        (AddedLayer (Conv2D (disc_conv kernel_size use_bias (PyInt init_num_filters)
                               (Some (2, 2))))) in
    let model := model_add model (AddedLayer (LeakyReLU 0.2)) in
    idx <- py_range_num 1 n_layers ;;
    match n_layers with
    | PyFloat _ => Raise (TypeError "'float' object cannot be interpreted as an integer")
    | PyInt n_layers =>
        model <- nlayer_loop init_num_filters kernel_size use_bias norm_layer channel_axis
                   use_dropout dropout_rate idx model ;;
        let model :=
          model_add model
            (AddedLayer (Conv2D (disc_conv kernel_size use_bias
                                   (times_min_pow2 init_num_filters n_layers) None))) in
        nl <- new_norm norm_layer channel_axis ;;
        let model := model_add model (AddedLayer nl) in
        let model := model_add model (AddedLayer (LeakyReLU 0.2)) in
        conv <- new_conv2d (final_conv kernel_size final_activation) ;;
        let model := model_add model (AddedLayer conv) in
        Ok (Sequential model)
    end.

(** ** Entry points *)

(** The dispatch passes neither [padding_layer], [dropout_rate] nor
    [autoencoder]: the builders' defaults ['zero'], [0.5] and [True] apply. *)
Definition build_generator_model (env : backend) (patch_size : list Z)
    (input_nc output_nc init_num_filters : Z) (model_name norm_layer : string)
    (use_dropout : bool) : result pyval :=
  if String.eqb model_name "unet_128" then
    gen_model <- build_unet env patch_size input_nc output_nc init_num_filters norm_layer
                   7 use_dropout 0.5 true ;;
    Ok (VModel gen_model)
  else if String.eqb model_name "unet_256" then
    gen_model <- build_unet env patch_size input_nc output_nc init_num_filters norm_layer
                   8 use_dropout 0.5 true ;;
    Ok (VModel gen_model)
  else if String.eqb model_name "resnet_6blocks" then
    build_resnet env patch_size input_nc output_nc init_num_filters norm_layer "zero"
      6 use_dropout 0.5
  else if String.eqb model_name "resnet_9blocks" then
    build_resnet env patch_size input_nc output_nc init_num_filters norm_layer "zero"
      9 use_dropout 0.5
  else Raise (NotImplementedError
                ("Generator model name [" ++ model_name ++ "] is not recognized")%string).

(** [use_dropout] and [dropout_rate] keep their defaults [False] and [0.5]. *)
Definition build_discriminator_model (env : backend) (patch_size : list Z)
    (input_nc init_num_filters n_layers : Z) (norm_layer : string) (use_sigmoid : bool)
    : result model :=
  build_nlayer_discriminator env patch_size input_nc init_num_filters n_layers norm_layer
    use_sigmoid false 0.5.

(** ** Reading a built graph *)

(** Every layer call in the history of a tensor, on all inputs of a merge. *)
Fixpoint Forall_layers (P : layer -> Prop) (t : tensor) : Prop :=
  match t with
  | Input _ _ => True
  | Call l x => P l /\ Forall_layers P x
  | Merge l x y => P l /\ Forall_layers P x /\ Forall_layers P y
  end.

Definition Forall_item (P : layer -> Prop) (it : seq_item) : Prop :=
  match it with
  | AddedTensor t => Forall_layers P t
  | AddedLayer l => P l
  end.

Definition Forall_model (P : layer -> Prop) (m : model) : Prop :=
  match m with
  | Model _ outputs => Forall_layers P outputs
  | Sequential items => Forall (Forall_item P) items
  end.

(** The layer calls from the input to the output, each met once.  Both merges
    of the source join a tensor with one derived from it: [Add] joins
    [previous] with the block built on it, [concatenate] joins the decoder
    with an encoder map it was built on.  The walk follows the derived one. *)
Fixpoint layer_calls (t : tensor) : list layer :=
  match t with
  | Input _ _ => []
  | Call l x => layer_calls x ++ [l]
  | Merge Add x y => layer_calls y ++ [Add]
  | Merge l x y => layer_calls x ++ [l]
  end.

Definition model_layers (m : model) : list layer :=
  match m with
  | Model _ outputs => layer_calls outputs
  | Sequential items =>
      flat_map (fun it => match it with
                          | AddedTensor t => layer_calls t
                          | AddedLayer l => [l]
                          end) items
  end.

(** The convolutions of a model, in order, by their arguments. *)
Definition conv_of (l : layer) : list conv_args :=
  match l with
  | Conv2D a => [a]
  | _ => []
  end.

Definition model_convs (m : model) : list conv_args :=
  flat_map conv_of (model_layers m).

Definition is_downsampling (l : layer) : bool :=
  match l with
  | Conv2D a => match c_strides a with
                | Some (2, 2) => true
                | _ => false
                end
  | _ => false
  end.

Definition is_upsampling (l : layer) : bool :=
  match l with
  | Conv2DTranspose a => match c_strides a with
                         | Some (2, 2) => true
                         | _ => false
                         end
  | _ => false
  end.

Definition count_layers (p : layer -> bool) (m : model) : nat :=
  List.length (filter p (model_layers m)).

(** Whether an up-sampling layer lies in the history of [t]. *)
Fixpoint in_decoder (t : tensor) : bool :=
  match t with
  | Input _ _ => false
  | Call l x => is_upsampling l || in_decoder x
  | Merge _ x y => in_decoder x || in_decoder y
  end.

(** Skip connections as a U-Net has them: wherever a decoder feature map [d]
    is passed through its activation into the next convolution (transposed
    or not), [d] is the concatenation of the up-sampled map with an encoder
    map. *)
Fixpoint skip_connected (t : tensor) : bool :=
  match t with
  | Input _ _ => true
  | Call l x =>
      match l, x with
      | (Conv2D _ | Conv2DTranspose _), Call (Activation _) d =>
          (if in_decoder d
           then match d with
                | Merge (Concatenate _) _ e => negb (in_decoder e)
                | _ => false
                end
           else true) && skip_connected x
      | _, _ => skip_connected x
      end
  | Merge _ x y => skip_connected x && skip_connected y
  end.

Definition is_unet (m : model) : bool :=
  match m with
  | Model _ outputs => in_decoder outputs && skip_connected outputs
  | Sequential _ => false
  end.

Definition generator_names : list string :=
  ["unet_128"; "unet_256"; "resnet_6blocks"; "resnet_9blocks"].

(** Two backends for concrete runs. *)
Definition channels_last_backend : backend :=
  {| image_data_format := "channels_last"; keras_contrib_installed := true |}.

Definition no_contrib_backend : backend :=
  {| image_data_format := "channels_last"; keras_contrib_installed := false |}.

(** ** Sizes, layer sets and other readings used by the properties *)

(** Height and width after a layer, by the framework's output-size rules:
    'same' padding divides by the stride rounding up under a convolution and
    multiplies by it under a transposed one; without padding a kernel of size
    [k] takes [k - 1] away; zero padding adds its four margins. *)
Definition ceil_div (a b : Z) : Z := - ((- a) / b).

Definition same_padding (a : conv_args) : bool :=
  match c_padding a with
  | Some p => String.eqb p "same"
  | None => false
  end.

Definition strides_of (a : conv_args) : Z * Z :=
  match c_strides a with
  | Some s => s
  | None => (1, 1)
  end.

Definition layer_size (l : layer) (hw : Z * Z) : Z * Z :=
  let (h, w) := hw in
  match l with
  | Conv2D a =>
      let (kh, kw) := c_kernel_size a in
      let (sh, sw) := strides_of a in
      if same_padding a then (ceil_div h sh, ceil_div w sw)
      else ((h - kh) / sh + 1, (w - kw) / sw + 1)
  | Conv2DTranspose a =>
      let (kh, kw) := c_kernel_size a in
      let (sh, sw) := strides_of a in
      if same_padding a then (h * sh, w * sw)
      else (h * sh + Z.max (kh - sh) 0, w * sw + Z.max (kw - sw) 0)
  | ZeroPadding2D (p_top, p_bottom, p_left, p_right) =>
      (h + p_top + p_bottom, w + p_left + p_right)
  | _ => hw
  end.

(** Height and width of [t] when the input patch is [hw]. *)
Fixpoint spatial_size (hw : Z * Z) (t : tensor) : Z * Z :=
  match t with
  | Input _ _ => hw
  | Call l x => layer_size l (spatial_size hw x)
  | Merge _ x _ => spatial_size hw x
  end.

(** The layers [build_unet] creates when [autoencoder] is left on. *)
Inductive unet_layer (use_bias : bool) (c : norm_class) (axis : Z) (rate : Q)
  : layer -> Prop :=
| UL_conv (f : Z) : unet_layer use_bias c axis rate (Conv2D (unet_conv use_bias f))
| UL_deconv (f : Z) : unet_layer use_bias c axis rate (Conv2DTranspose (unet_conv use_bias f))
| UL_norm : unet_layer use_bias c axis rate (Normalization c axis)
| UL_leaky : unet_layer use_bias c axis rate (LeakyReLU 0.2)
| UL_act (name : string) : unet_layer use_bias c axis rate (Activation name)
| UL_dropout : unet_layer use_bias c axis rate (Dropout rate).

Definition not_concatenate (l : layer) : Prop :=
  match l with
  | Concatenate _ => False
  | _ => True
  end.

Definition count_calls (p : layer -> bool) (t : tensor) : nat :=
  List.length (filter p (layer_calls t)).

Definition is_resnet_name (model_name : string) : bool :=
  String.eqb model_name "resnet_6blocks" || String.eqb model_name "resnet_9blocks".

(** What one pass of the loop of [build_nlayer_discriminator] adds. *)
Definition nlayer_stage (init_num_filters : Z) (kernel_size : Z * Z) (use_bias : bool)
    (c : norm_class) (axis : Z) (use_dropout : bool) (rate : Q) (n : Z) : list seq_item :=
  [AddedLayer (Conv2D (disc_conv kernel_size use_bias
                         (PyInt (init_num_filters * Z.min (2 ^ n) 8)) (Some (2, 2))));
   AddedLayer (Normalization c axis)]
  ++ (if use_dropout then [AddedLayer (Dropout rate)] else [])
  ++ [AddedLayer (LeakyReLU 0.2)].

(** The items of the PatchGAN [Sequential], in the order they are added. *)
Definition patchgan_items (input_shape : list Z) (init_num_filters n_layers : Z)
    (use_bias : bool) (c : norm_class) (axis : Z) (final_activation : pyarg)
    (use_dropout : bool) (rate : Q) : list seq_item :=
  [AddedTensor (Input input_shape None);
   AddedLayer (Conv2D (disc_conv (4, 4) use_bias (PyInt init_num_filters) (Some (2, 2))));
   AddedLayer (LeakyReLU 0.2)]
  ++ flat_map (nlayer_stage init_num_filters (4, 4) use_bias c axis use_dropout rate)
       (py_range 1 n_layers)
  ++ [AddedLayer (Conv2D (disc_conv (4, 4) use_bias
                            (times_min_pow2 init_num_filters n_layers) None));
      AddedLayer (Normalization c axis);
      AddedLayer (LeakyReLU 0.2);
      AddedLayer (Conv2D (final_conv (4, 4) final_activation))].

Definition uses_norm (c : norm_class) (l : layer) : Prop :=
  match l with
  | Normalization c' _ => c' = c
  | _ => True
  end.

(** [use_bias] was passed, with value [b]. *)
Definition bias_set (b : bool) (l : layer) : Prop :=
  match l with
  | Conv2D a | Conv2DTranspose a => c_use_bias a = Some b
  | _ => True
  end.

(** ** Chains of layers, sizes along a model *)

(** Calling the layers of [ls], in order, starting from [t]. *)
Definition chain (ls : list layer) (t : tensor) : tensor :=
  fold_left (fun x l => Call l x) ls t.

(** What a stride-2 'same' convolution, resp. transposed convolution, does
    to the height and width. *)
Definition halve (hw : Z * Z) : Z * Z := (ceil_div (fst hw) 2, ceil_div (snd hw) 2).

Definition double (hw : Z * Z) : Z * Z := (fst hw * 2, snd hw * 2).

(** Height and width after the layers of [ls], starting from [hw]. *)
Definition layers_size (hw : Z * Z) (ls : list layer) : Z * Z :=
  fold_left (fun s l => layer_size l s) ls hw.

Definition model_size (hw : Z * Z) (m : model) : Z * Z :=
  match m with
  | Model _ outputs => spatial_size hw outputs
  | Sequential _ => layers_size hw (model_layers m)
  end.

Definition deconv_of (l : layer) : list conv_args :=
  match l with
  | Conv2DTranspose a => [a]
  | _ => []
  end.

(** The transposed convolutions of a model, in order, by their arguments. *)
Definition model_deconvs (m : model) : list conv_args :=
  flat_map deconv_of (model_layers m).

Definition is_dropout (l : layer) : bool :=
  match l with
  | Dropout _ => true
  | _ => false
  end.

(** [l] is no [Dropout] layer. *)
Definition no_dropout (l : layer) : Prop := is_dropout l = false.

(** The tensor a model starts from. *)
Definition model_input (m : model) : option tensor :=
  match m with
  | Model inputs _ => Some inputs
  | Sequential (AddedTensor t :: _) => Some t
  | Sequential _ => None
  end.

Definition norm_axis_is (axis : Z) (l : layer) : Prop :=
  match l with
  | Normalization _ axis' => axis' = axis
  | _ => True
  end.

(** What one pass of the encoder loop of [build_unet] calls. *)
Definition unet_down_stage (init_num_filters : Z) (use_bias : bool) (c : norm_class)
    (axis : Z) (i : Z) : list layer :=
  [LeakyReLU 0.2;
   Conv2D (unet_conv use_bias (init_num_filters * Z.max (2 ^ i) 8));
   Normalization c axis].

(** What one pass of the decoder loop calls when [autoencoder] is on. *)
Definition unet_up_stage (init_num_filters : Z) (use_bias : bool) (c : norm_class)
    (axis : Z) (use_dropout : bool) (rate : Q) (i : Z) : list layer :=
  [Normalization c axis]
  ++ (if use_dropout then [Dropout rate] else [])
  ++ [Activation "relu";
      Conv2DTranspose (unet_conv use_bias (init_num_filters * Z.max (2 ^ i) 8))].

(** The layers of the U-Net with [autoencoder] on, from input to output. *)
Definition unet_layers (init_num_filters output_nc : Z) (use_bias : bool) (c : norm_class)
    (axis : Z) (use_dropout : bool) (rate : Q) (n_levels : Z) : list layer :=
  [Conv2D (unet_conv use_bias init_num_filters)]
  ++ flat_map (unet_down_stage init_num_filters use_bias c axis) (py_range 1 (n_levels - 1))
  ++ [LeakyReLU 0.2;
      Conv2D (unet_conv use_bias (init_num_filters * Z.max (2 ^ n_levels - 1) 8));
      Activation "relu";
      Conv2DTranspose (unet_conv use_bias (init_num_filters * Z.max (2 ^ n_levels - 2) 8))]
  ++ flat_map (unet_up_stage init_num_filters use_bias c axis use_dropout rate)
       (rev (py_range 1 (n_levels - 1)))
  ++ [Normalization c axis;
      Activation "relu";
      Conv2D (unet_conv use_bias output_nc);
      Activation "tanh"].

(** Walks down an explicit list of items. *)
Ltac each_item :=
  repeat first [ apply Forall_nil | apply Forall_cons ]; simpl; auto.

Create HintDb graph.

#[local] Hint Constructors unet_layer : graph.

(** * Properties *)

(** ** The result monad and [get_norm_layer] *)

Lemma bind_ok_inv {A B : Type} (r : result A) (k : A -> result B) (b : B) :
  bind r k = Ok b -> exists a, r = Ok a /\ k a = Ok b.
Proof.
  destruct r as [a | e]; simpl; intros H; [ exists a; auto | discriminate ].
Qed.

Lemma Forall_layers_impl (P Q : layer -> Prop) (t : tensor) :
  (forall l, P l -> Q l) -> Forall_layers P t -> Forall_layers Q t.
Proof.
  intros HPQ; induction t as [shape name | l x IH | l x IHx y IHy]; simpl; intuition.
Qed.

Lemma Forall_model_impl (P Q : layer -> Prop) (m : model) :
  (forall l, P l -> Q l) -> Forall_model P m -> Forall_model Q m.
Proof.
  intros HPQ; destruct m as [i o | items]; simpl.
  - now apply Forall_layers_impl.
  - apply Forall_impl; intros [t | l]; simpl; [ now apply Forall_layers_impl | auto ].
Qed.

Lemma get_norm_layer_batch (env : backend) :
  get_norm_layer env "batch" = Ok (NormClass BatchNormalization).
Proof. reflexivity. Qed.

Lemma get_norm_layer_instance (env : backend) :
  get_norm_layer env "instance" =
  if keras_contrib_installed env then Ok (NormClass InstanceNormalization)
  else Raise (ImportError
    ("keras_contrib is required to use InstanceNormalization layers. Install keras_contrib or "
     ++ "switch normalization to " ++ dquote ++ "batch" ++ dquote ++ ".")%string).
Proof. reflexivity. Qed.

Lemma get_norm_layer_other (env : backend) (layer_name : string) :
  layer_name <> "batch" -> layer_name <> "instance" ->
  get_norm_layer env layer_name =
  Ok (NormExc (NotImplementedError
        ("Normalization layer name [" ++ layer_name ++ "] is not recognized.")%string)).
Proof.
  intros Hb Hi; unfold get_norm_layer.
  apply String.eqb_neq in Hb; apply String.eqb_neq in Hi.
  now rewrite Hb, Hi.
Qed.

(** The class [get_norm_layer] hands back is fixed by the name alone. *)
Lemma get_norm_layer_class (env : backend) (layer_name : string) (c : norm_class) :
  get_norm_layer env layer_name = Ok (NormClass c) ->
  (layer_name = "batch" /\ c = BatchNormalization) \/
  (layer_name = "instance" /\ c = InstanceNormalization /\ keras_contrib_installed env = true).
Proof.
  unfold get_norm_layer.
  destruct (String.eqb_spec layer_name "batch") as [-> | _].
  - intros H; left; split; congruence.
  - destruct (String.eqb_spec layer_name "instance") as [-> | _].
    + destruct (keras_contrib_installed env); [ | discriminate ].
      intros H; right; repeat split; congruence.
    + discriminate.
Qed.

Lemma py_range_length (lo hi : Z) : List.length (py_range lo hi) = Z.to_nat (hi - lo).
Proof. unfold py_range; now rewrite length_map, length_seq. Qed.

(** ** Layers of the U-Net builder *)

Section UNetFacts.

Variables (init_num_filters : Z) (use_bias : bool) (c : norm_class) (axis : Z).
Variables (use_dropout : bool) (rate : Q).

Lemma unet_encoder_layers (idx : list Z) (prev : tensor) (nodes : list tensor) :
  Forall_layers (unet_layer use_bias c axis rate) prev ->
  exists prev' nodes',
    unet_encoder init_num_filters use_bias (NormClass c) axis idx prev nodes
      = Ok (prev', nodes')
    /\ Forall_layers (unet_layer use_bias c axis rate) prev'.
Proof.
  revert prev nodes; induction idx as [ | i idx IH]; intros prev nodes Hprev.
  - exists prev, nodes; simpl; auto.
  - simpl. apply IH. simpl. auto with graph.
Qed.

Lemma unet_decoder_layers (idx : list Z) (nodes : list tensor) (deconv : tensor) :
  Forall_layers (unet_layer use_bias c axis rate) deconv -> in_decoder deconv = true ->
  exists deconv',
    unet_decoder init_num_filters use_bias (NormClass c) axis use_dropout rate true
      idx nodes deconv = Ok deconv'
    /\ Forall_layers (unet_layer use_bias c axis rate) deconv' /\ in_decoder deconv' = true.
Proof.
  revert deconv; induction idx as [ | i idx IH]; intros deconv Hd Hup.
  - exists deconv; simpl; auto.
  - simpl. apply IH; [ | reflexivity ].
    destruct use_dropout; simpl; auto 10 with graph.
Qed.

(** An exception instance in place of the class stops either loop at its
    first pass. *)
Lemma unet_encoder_exc (e : exn) (idx : list Z) (prev : tensor) (nodes : list tensor)
    (r : tensor * list tensor) :
  unet_encoder init_num_filters use_bias (NormExc e) axis idx prev nodes = Ok r ->
  idx = [].
Proof. destruct idx; [ reflexivity | discriminate ]. Qed.

End UNetFacts.

(** With a normalization class at hand and [autoencoder] on, [build_unet]
    returns a model made of the layers of [unet_layer] only; its last stage
    normalizes the decoder output and feeds it, unmerged, to the final
    convolution. *)
Lemma build_unet_ok (env : backend) (patch_size : list Z) (input_nc output_nc : Z)
    (init_num_filters : Z) (norm_layer : string) (n_levels : Z) (use_dropout : bool)
    (rate : Q) (c : norm_class) :
  get_norm_layer env norm_layer = Ok (NormClass c) ->
  let use_bias := String.eqb norm_layer "instance" in
  let axis := channel_axis_of env in
  exists deconv,
    build_unet env patch_size input_nc output_nc init_num_filters norm_layer n_levels
      use_dropout rate true
    = Ok (Model (Input (input_shape_of env patch_size input_nc) (Some "input1"))
            (Call (Activation "tanh")
               (Call (Conv2D (unet_conv use_bias output_nc))
                  (Call (Activation "relu")
                     (Call (Normalization c axis) deconv)))))
    /\ Forall_layers (unet_layer use_bias c axis rate) deconv
    /\ in_decoder deconv = true.
Proof.
  intros Hnorm ub ax. unfold build_unet. rewrite Hnorm. cbn [bind].
  fold ub ax.
  set (inp := Input (input_shape_of env patch_size input_nc) (Some "input1")).
  set (first := Call (Conv2D (unet_conv ub init_num_filters)) inp).
  assert (Hfirst : Forall_layers (unet_layer ub c ax rate) first)
    by (simpl; auto with graph).
  destruct (unet_encoder_layers init_num_filters ub c ax rate
              (py_range 1 (n_levels - 1)) first [first] Hfirst)
    as (prev & nodes & -> & Hprev).
  cbn [bind].
  match goal with
  | |- context [unet_decoder _ _ _ _ _ _ _ ?idx ?nd ?d] =>
      destruct (unet_decoder_layers init_num_filters ub c ax use_dropout rate idx nd d)
        as (deconv & -> & Hdec & Hup);
      [ simpl; auto 10 with graph | reflexivity | ]
  end.
  cbn. exists deconv; auto.
Qed.

(** [build_unet] returns only when [get_norm_layer] gave a class. *)
Lemma build_unet_ok_inv (env : backend) (patch_size : list Z) (input_nc output_nc : Z)
    (init_num_filters : Z) (norm_layer : string) (n_levels : Z) (use_dropout : bool)
    (rate : Q) (autoencoder : bool) (m : model) :
  build_unet env patch_size input_nc output_nc init_num_filters norm_layer n_levels
    use_dropout rate autoencoder = Ok m ->
  exists c, get_norm_layer env norm_layer = Ok (NormClass c).
Proof.
  unfold build_unet.
  destruct (get_norm_layer env norm_layer) as [[c | e] | e]; cbn [bind];
    [ eauto | | discriminate ].
  intros H. exfalso.
  apply bind_ok_inv in H. destruct H as ([prev nodes] & Henc & H).
  apply unet_encoder_exc in Henc. rewrite Henc in H. cbn in H. discriminate.
Qed.

Lemma unet_generator_eq (env : backend) (patch_size : list Z) (input_nc output_nc : Z)
    (init_num_filters : Z) (model_name norm_layer : string) (use_dropout : bool) :
  model_name = "unet_128" \/ model_name = "unet_256" ->
  exists n_levels,
    (n_levels = 7 \/ n_levels = 8) /\
    build_generator_model env patch_size input_nc output_nc init_num_filters model_name
      norm_layer use_dropout
    = (gen_model <- build_unet env patch_size input_nc output_nc init_num_filters
                      norm_layer n_levels use_dropout 0.5 true ;;
       Ok (VModel gen_model)).
Proof.
  intros [-> | ->]; [ exists 7 | exists 8 ]; split; auto.
Qed.

(** C1, evaluated on the code.  For the model names 'unet_128' and
    'unet_256', [build_generator_model] calls [build_unet] with [autoencoder]
    left at its default [True], so both concatenation sites are passed over:
    in every generator it returns no layer is a concatenation, and the
    decoder output reaches the final convolution without having been
    concatenated with an encoder feature map.  No returned generator is skip
    connected. *)
Theorem unet_generator_is_plain_autoencoder (env : backend) (patch_size : list Z)
    (input_nc output_nc init_num_filters : Z) (model_name norm_layer : string)
    (use_dropout : bool) (m : model) :
  model_name = "unet_128" \/ model_name = "unet_256" ->
  build_generator_model env patch_size input_nc output_nc init_num_filters model_name
    norm_layer use_dropout = Ok (VModel m) ->
  Forall_model not_concatenate m /\ is_unet m = false.
Proof.
  intros Hname Hgen.
  destruct (unet_generator_eq env patch_size input_nc output_nc init_num_filters
              model_name norm_layer use_dropout Hname) as (n_levels & _ & Heq).
  rewrite Heq in Hgen. apply bind_ok_inv in Hgen. destruct Hgen as (g & Hg & Hm).
  injection Hm as <-.
  destruct (build_unet_ok_inv _ _ _ _ _ _ _ _ _ _ _ Hg) as (c & Hc).
  destruct (build_unet_ok env patch_size input_nc output_nc init_num_filters norm_layer
              n_levels use_dropout 0.5 c Hc) as (deconv & Hbuild & Hlayers & Hup).
  rewrite Hbuild in Hg. injection Hg as <-. split.
  - simpl. repeat split.
    eapply Forall_layers_impl; [ | exact Hlayers ].
    intros l Hl. now destruct Hl.
  - simpl. rewrite Hup. reflexivity.
Qed.

(** The hypotheses of [unet_generator_is_plain_autoencoder] are met by the
    'unet_256' generator on 256x256 RGB patches. *)
Lemma unet_generator_is_plain_autoencoder_witness :
  exists m,
    build_generator_model channels_last_backend [256; 256] 3 3 64 "unet_256" "batch" false
      = Ok (VModel m)
    /\ Forall_model not_concatenate m /\ is_unet m = false.
Proof.
  eexists. split; [ vm_compute; reflexivity | ].
  apply (unet_generator_is_plain_autoencoder channels_last_backend [256; 256] 3 3 64
           "unet_256" "batch" false); [ right; reflexivity | vm_compute; reflexivity ].
Defined.

(** The 'unet_256' generator with the default hyperparameters is returned,
    and it is not a skip-connected U-Net: seven transposed convolutions, no
    concatenation. *)
Lemma unet_generator_not_skip_connected :
  exists m,
    build_generator_model channels_last_backend [256; 256] 3 3 64 "unet_256" "batch" false
      = Ok (VModel m)
    /\ is_unet m = false
    /\ count_layers is_upsampling m = 7%nat
    /\ count_layers (fun l => match l with Concatenate _ => true | _ => false end) m = 0%nat.
Proof.
  eexists. split; [ vm_compute; reflexivity | ].
  repeat split; vm_compute; reflexivity.
Qed.

(** [is_unet] can hold of what [build_unet] returns: with two levels the
    decoder loop is empty and [autoencoder] off gives the one, well-formed,
    concatenation. *)
Example two_level_unet_is_skip_connected :
  exists m,
    build_unet channels_last_backend [256; 256] 3 3 64 "batch" 2 false 0.5 false = Ok m
    /\ is_unet m = true.
Proof. eexists; split; vm_compute; reflexivity. Qed.

(** Leaving [autoencoder] off does not give skip connections either: as
    soon as the decoder loop runs once, its [concatenate] call is refused. *)
Lemma unet_decoder_concatenate_raises (init_num_filters : Z) (use_bias : bool)
    (norm_layer : norm_value) (axis : Z) (use_dropout : bool) (rate : Q)
    (idx : list Z) (nodes : list tensor) (deconv : tensor) :
  idx <> [] ->
  raises (unet_decoder init_num_filters use_bias norm_layer axis use_dropout rate false
            idx nodes deconv).
Proof.
  destruct idx as [ | i idx]; [ congruence | intros _ ].
  unfold raises; simpl.
  destruct (new_norm norm_layer axis) as [nl | e]; cbn [bind]; [ | eauto ].
  destruct (py_index nodes i) as [node | e]; cbn [bind]; eauto.
Qed.

(** So with three levels or more, as under 'unet_128' and 'unet_256',
    [build_unet] with [autoencoder] off returns nothing. *)
Lemma build_unet_skip_raises (env : backend) (patch_size : list Z) (input_nc output_nc : Z)
    (init_num_filters : Z) (norm_layer : string) (n_levels : Z) (use_dropout : bool)
    (rate : Q) :
  3 <= n_levels ->
  raises (build_unet env patch_size input_nc output_nc init_num_filters norm_layer n_levels
            use_dropout rate false).
Proof.
  intros Hn. unfold raises, build_unet.
  destruct (get_norm_layer env norm_layer) as [nv | e]; cbn [bind]; [ | eauto ].
  match goal with |- context [unet_encoder ?i ?b ?n ?a ?idx ?p ?ns] =>
    destruct (unet_encoder i b n a idx p ns) as [[prev nodes] | e]
  end; cbn [bind]; [ | eauto ].
  match goal with |- context [unet_decoder ?i ?b ?n ?a ?d ?r false ?idx ?ns ?t] =>
    destruct (unet_decoder_concatenate_raises i b n a d r idx ns t) as (e & ->)
  end; [ | cbn [bind]; eauto ].
  intros Hnil. apply (f_equal (@List.length Z)) in Hnil.
  rewrite length_rev, py_range_length in Hnil. simpl in Hnil. lia.
Qed.

(** ** The ResNet builder *)

Lemma count_calls_Call (p : layer -> bool) (l : layer) (x : tensor) :
  count_calls p (Call l x) = (count_calls p x + if p l then 1 else 0)%nat.
Proof.
  unfold count_calls; simpl. rewrite filter_app, length_app. simpl.
  now destruct (p l).
Qed.

Section ResNetFacts.

Variables (init_num_filters : Z) (kernel_size : Z * Z) (use_bias : bool).
Variables (c : norm_class) (axis : Z) (rate : Q).

(** The two stride-2 loops taken by themselves: every pass adds one
    stride-2 stage. *)
Lemma resnet_down_stages (idx : list Z) (act : tensor) :
  exists act',
    resnet_down init_num_filters kernel_size (NormClass c) axis idx act = Ok act'
    /\ count_calls is_downsampling act'
       = (count_calls is_downsampling act + List.length idx)%nat.
Proof.
  revert act; induction idx as [ | i idx IH]; intros act.
  - exists act; split; [ reflexivity | cbn; lia ].
  - cbn [resnet_down new_norm bind].
    match goal with |- context [resnet_down _ _ _ _ idx ?a] =>
      destruct (IH a) as (act' & -> & Hc) end.
    exists act'; split; [ reflexivity | ].
    rewrite Hc, !count_calls_Call. destruct kernel_size. cbn. lia.
Qed.

Lemma resnet_up_stages (idx : list Z) (act : tensor) :
  exists act',
    resnet_up init_num_filters kernel_size (NormClass c) axis idx act = Ok act'
    /\ count_calls is_upsampling act'
       = (count_calls is_upsampling act + List.length idx)%nat.
Proof.
  revert act; induction idx as [ | i idx IH]; intros act.
  - exists act; split; [ reflexivity | cbn; lia ].
  - cbn [resnet_up new_norm bind].
    match goal with |- context [resnet_up _ _ _ _ idx ?a] =>
      destruct (IH a) as (act' & -> & Hc) end.
    exists act'; split; [ reflexivity | ].
    rewrite Hc, !count_calls_Call. destruct kernel_size. cbn. lia.
Qed.

(** With dropout the block never returns, whatever padding class it is
    given: if both padding layers can be created, the second one is called on
    the [Dropout] layer object. *)
Lemma build_conv_block_dropout (previous : tensor) (num_filters : Z)
    (norm_layer : norm_value) (padding_layer : list Z -> result layer) :
  raises (build_conv_block previous num_filters kernel_size norm_layer axis padding_layer
            true rate use_bias).
Proof.
  unfold raises, build_conv_block.
  destruct (padding_layer [1; 1; 1; 1]) as [pl | e]; cbn [call_layer bind]; [ | eauto ].
  destruct (new_norm norm_layer axis) as [nl | e]; cbn [bind]; eauto.
Qed.

Lemma resnet_blocks_dropout (norm_layer : norm_value)
    (padding_layer : list Z -> result layer) (idx : list Z) (act : tensor) :
  idx <> [] ->
  raises (resnet_blocks init_num_filters kernel_size use_bias norm_layer axis
            padding_layer true rate idx act).
Proof.
  destruct idx as [ | i idx]; [ congruence | intros _ ].
  cbn [resnet_blocks].
  destruct (build_conv_block_dropout act (init_num_filters * 2 ^ n_downsamples)
              norm_layer padding_layer) as (e & ->).
  exists e; reflexivity.
Qed.

(** With [ZeroPadding2D] for padding class the block stops at its first
    line, dropout or not: the tuple [(1, 1, 1, 1)] has four elements. *)
Lemma build_conv_block_zero_padding (previous : tensor) (num_filters : Z)
    (norm_layer : norm_value) (use_dropout : bool) :
  build_conv_block previous num_filters kernel_size norm_layer axis new_zero_padding
    use_dropout rate use_bias
  = Raise (ValueError "`padding` should have two elements").
Proof. reflexivity. Qed.

End ResNetFacts.

(** [outer_padding_size] is the tuple [(3, 3, 3, 3)], which [ZeroPadding2D]
    refuses. *)
Lemma outer_padding_refused :
  outer_padding_size = [3; 3; 3; 3]
  /\ new_zero_padding outer_padding_size
     = Raise (ValueError "`padding` should have two elements").
Proof. split; reflexivity. Qed.

(** The loops of [build_resnet] as they are called: two down-sampling
    passes, [n_blocks] up-sampling passes. *)
Lemma resnet_loops_stage_counts (init_num_filters : Z) (kernel_size : Z * Z)
    (c : norm_class) (axis n_blocks : Z) (act : tensor) :
  (exists act',
      resnet_down init_num_filters kernel_size (NormClass c) axis
        (py_range 0 n_downsamples) act = Ok act'
      /\ count_calls is_downsampling act' = (count_calls is_downsampling act + 2)%nat)
  /\ (exists act',
         resnet_up init_num_filters kernel_size (NormClass c) axis
           (rev (py_range 0 n_blocks)) act = Ok act'
         /\ count_calls is_upsampling act'
            = (count_calls is_upsampling act + Z.to_nat n_blocks)%nat).
Proof.
  split.
  - destruct (resnet_down_stages init_num_filters kernel_size c axis
                (py_range 0 n_downsamples) act) as (act' & H & Hc).
    exists act'; split; [ exact H | exact Hc ].
  - destruct (resnet_up_stages init_num_filters kernel_size c axis
                (rev (py_range 0 n_blocks)) act) as (act' & H & Hc).
    exists act'; split; [ exact H | ].
    rewrite Hc, length_rev, py_range_length. f_equal. lia.
Qed.

(** With zero padding [build_resnet] gets as far as its first padding layer:
    after [get_norm_layer] and the test of [padding_layer], before any
    normalization layer is created. *)
Lemma build_resnet_zero (env : backend) (patch_size : list Z) (input_nc output_nc : Z)
    (init_num_filters : Z) (norm_layer : string) (n_blocks : Z) (use_dropout : bool)
    (rate : Q) :
  build_resnet env patch_size input_nc output_nc init_num_filters norm_layer "zero"
    n_blocks use_dropout rate
  = match get_norm_layer env norm_layer with
    | Raise e => Raise e
    | Ok _ => Raise (ValueError "`padding` should have two elements")
    end.
Proof.
  unfold build_resnet. destruct (get_norm_layer env norm_layer); reflexivity.
Qed.

Lemma build_resnet_zero_raises (env : backend) (patch_size : list Z)
    (input_nc output_nc : Z) (init_num_filters : Z) (norm_layer : string) (n_blocks : Z)
    (use_dropout : bool) (rate : Q) :
  raises (build_resnet env patch_size input_nc output_nc init_num_filters norm_layer "zero"
            n_blocks use_dropout rate).
Proof.
  rewrite build_resnet_zero. unfold raises.
  destruct (get_norm_layer env norm_layer); eauto.
Qed.

(** The ResNet names of [build_generator_model] go to [build_resnet] with
    zero padding. *)
Lemma resnet_generator_eq (env : backend) (patch_size : list Z)
    (input_nc output_nc init_num_filters : Z) (model_name norm_layer : string)
    (use_dropout : bool) :
  model_name = "resnet_6blocks" \/ model_name = "resnet_9blocks" ->
  build_generator_model env patch_size input_nc output_nc init_num_filters model_name
    norm_layer use_dropout
  = match get_norm_layer env norm_layer with
    | Raise e => Raise e
    | Ok _ => Raise (ValueError "`padding` should have two elements")
    end.
Proof.
  intros [-> | ->]; unfold build_generator_model; simpl String.eqb; cbv iota;
    apply build_resnet_zero.
Qed.

(** ** What [build_generator_model] does, name by name *)

(** For a supported name the outcome is decided by what [get_norm_layer]
    gives and by the builder the name stands for. *)
Lemma generator_outcome (env : backend) (patch_size : list Z)
    (input_nc output_nc init_num_filters : Z) (model_name norm_layer : string)
    (use_dropout : bool) :
  In model_name generator_names ->
  let r := build_generator_model env patch_size input_nc output_nc init_num_filters
             model_name norm_layer use_dropout in
  match get_norm_layer env norm_layer with
  | Raise e => r = Raise e
  | Ok nv =>
      if is_resnet_name model_name then exists msg, r = Raise (ValueError msg)
      else match nv with
           | NormClass _ => exists m, r = Ok (VModel m)
           | NormExc _ => exists msg, r = Raise (TypeError msg)
           end
  end.
Proof.
  intros Hin r; subst r. simpl in Hin.
  destruct Hin as [<- | [<- | [<- | [<- | []]]]].
  (* unet_128, unet_256 *)
  1, 2: unfold build_generator_model, is_resnet_name; simpl String.eqb; simpl orb;
    cbv iota;
    destruct (get_norm_layer env norm_layer) as [[c | e] | e] eqn:Hnorm;
    [ match goal with |- context [build_unet ?e ?p ?i ?o ?f ?n ?lv ?d ?r true] =>
        destruct (build_unet_ok e p i o f n lv d r c Hnorm) as (dc & -> & _)
      end; cbn [bind]; eauto
    | unfold build_unet; rewrite Hnorm; eexists; vm_compute; reflexivity
    | unfold build_unet; rewrite Hnorm; reflexivity ].
  (* resnet_6blocks, resnet_9blocks *)
  1, 2: rewrite resnet_generator_eq by auto;
    destruct (get_norm_layer env norm_layer) as [nv | e]; simpl; eauto.
Qed.

Lemma generator_unknown_name (env : backend) (patch_size : list Z)
    (input_nc output_nc init_num_filters : Z) (model_name norm_layer : string)
    (use_dropout : bool) :
  ~ In model_name generator_names ->
  build_generator_model env patch_size input_nc output_nc init_num_filters model_name
    norm_layer use_dropout
  = Raise (NotImplementedError
             ("Generator model name [" ++ model_name ++ "] is not recognized")%string).
Proof.
  intros Hnot. unfold build_generator_model.
  repeat match goal with
  | |- context [String.eqb model_name ?s] =>
      destruct (String.eqb_spec model_name s) as [-> | _];
        [ exfalso; apply Hnot; simpl; tauto | ]
  end.
  reflexivity.
Qed.

(** [get_norm_layer] itself raises nothing but [ImportError]. *)
Lemma get_norm_layer_raise (env : backend) (layer_name : string) (e : exn) :
  get_norm_layer env layer_name = Raise e ->
  layer_name = "instance" /\ keras_contrib_installed env = false
  /\ exists msg, e = ImportError msg.
Proof.
  unfold get_norm_layer.
  destruct (String.eqb layer_name "batch"); [ discriminate | ].
  destruct (String.eqb_spec layer_name "instance") as [-> | _]; [ | discriminate ].
  destruct (keras_contrib_installed env); [ discriminate | ].
  intros H; injection H as <-; eauto.
Qed.

(** ** ResNet generators: padding and dropout *)

(** C2, evaluated on the code.  No ResNet generator is ever built, so none
    with matching stage counts: for 'resnet_6blocks' and 'resnet_9blocks'
    [build_generator_model] raises, for every backend, size, normalization
    name and dropout flag.  Unless [get_norm_layer] has raised before, the
    exception is the [ValueError] of the first padding layer, which
    [build_resnet] creates from the four-element tuple
    [outer_padding_size]. *)
Theorem resnet_generator_padding_raises (env : backend) (patch_size : list Z)
    (input_nc output_nc init_num_filters : Z) (model_name norm_layer : string)
    (use_dropout : bool) :
  model_name = "resnet_6blocks" \/ model_name = "resnet_9blocks" ->
  let r := build_generator_model env patch_size input_nc output_nc init_num_filters
             model_name norm_layer use_dropout in
  raises r
  /\ (forall v, r <> Ok v)
  /\ exists msg,
       new_zero_padding outer_padding_size = Raise (ValueError msg)
       /\ forall nv, get_norm_layer env norm_layer = Ok nv -> r = Raise (ValueError msg).
Proof.
  intros Hname r; subst r. rewrite resnet_generator_eq by assumption.
  split; [ | split ].
  - unfold raises. destruct (get_norm_layer env norm_layer); eauto.
  - intros v. destruct (get_norm_layer env norm_layer); discriminate.
  - eexists. split; [ reflexivity | ]. intros nv ->. reflexivity.
Qed.

(** The hypothesis of [resnet_generator_padding_raises] is met by the
    'resnet_6blocks' generator with the default hyperparameters, which
    raises the [ValueError]. *)
Lemma resnet_generator_padding_raises_witness :
  exists msg,
    build_generator_model channels_last_backend [128; 128] 3 3 64 "resnet_6blocks" "batch"
      false = Raise (ValueError msg).
Proof.
  destruct (resnet_generator_padding_raises channels_last_backend [128; 128] 3 3 64
              "resnet_6blocks" "batch" false (or_introl eq_refl))
    as (_ & _ & msg & _ & Hr).
  exists msg. exact (Hr (NormClass BatchNormalization) eq_refl).
Defined.

(** C3, evaluated on the code.  With the dropout flag set, both ResNet
    names make [build_generator_model] raise, for every backend, every
    normalization name and all sizes.  [build_conv_block] binds [act] to the
    [Dropout] layer object instead of calling it on [act], so a block with
    dropout cannot return ([build_conv_block_dropout]); as the code stands,
    [build_resnet] stops before its first block, at the padding layer. *)
Theorem resnet_generator_dropout_raises (env : backend) (patch_size : list Z)
    (input_nc output_nc init_num_filters : Z) (norm_layer : string) :
  raises (build_generator_model env patch_size input_nc output_nc init_num_filters
            "resnet_6blocks" norm_layer true)
  /\ raises (build_generator_model env patch_size input_nc output_nc init_num_filters
               "resnet_9blocks" norm_layer true).
Proof.
  split; unfold build_generator_model; simpl String.eqb; cbv iota;
    apply build_resnet_zero_raises.
Qed.

Example resnet_generator_dropout_batch :
  build_generator_model channels_last_backend [256; 256] 3 3 64 "resnet_6blocks" "batch" true
  = Raise (ValueError "`padding` should have two elements").
Proof. vm_compute; reflexivity. Qed.

(** A block with dropout, given a padding class that takes the tuple. *)
Example conv_block_dropout_raises :
  build_conv_block (Input [64; 64; 256] None) 256 (3, 3) (NormClass BatchNormalization) (-1)
    (fun _ => Ok (ZeroPadding2D (1, 1, 1, 1))) true 0.5 false
  = Raise (TypeError "Inputs to a layer should be tensors").
Proof. reflexivity. Qed.

(** The U-Net names do build with the dropout flag set. *)
Example unet_generator_dropout_batch :
  exists m,
    build_generator_model channels_last_backend [256; 256] 3 3 64 "unet_256" "batch" true
    = Ok (VModel m)
    /\ count_layers (fun l => match l with Dropout _ => true | _ => false end) m = 6%nat.
Proof. eexists; split; vm_compute; reflexivity. Qed.

(** ** Dispatch on the model name *)

(** C4 as stated fails: 'unet_128' is a supported name, yet with instance
    normalization and no [keras_contrib] no model is returned; the
    [ImportError] of [get_norm_layer] comes out instead. *)
Lemma generator_known_name_without_model :
  In "unet_128" generator_names
  /\ exists msg,
       build_generator_model no_contrib_backend [128; 128] 3 3 64 "unet_128" "instance" false
       = Raise (ImportError msg).
Proof.
  split; [ simpl; tauto | eexists; vm_compute; reflexivity ].
Qed.

(** C4, as the code has it.  [build_generator_model] raises
    [NotImplementedError] exactly when the name is none of the four; whatever
    it returns is a model and is returned for one of the four names; for
    'unet_128' and 'unet_256' it does return a model whenever
    [get_norm_layer] yields a layer class; and for each of the four names an
    exception raised by [get_norm_layer] comes out as it is. *)
Theorem build_generator_model_dispatch (env : backend) (patch_size : list Z)
    (input_nc output_nc init_num_filters : Z) (model_name norm_layer : string)
    (use_dropout : bool) :
  let r := build_generator_model env patch_size input_nc output_nc init_num_filters
             model_name norm_layer use_dropout in
  ((exists msg, r = Raise (NotImplementedError msg)) <-> ~ In model_name generator_names)
  /\ (forall v, r = Ok v -> In model_name generator_names /\ exists m, v = VModel m)
  /\ (model_name = "unet_128" \/ model_name = "unet_256" ->
      (exists c, get_norm_layer env norm_layer = Ok (NormClass c)) ->
      exists m, r = Ok (VModel m))
  /\ (In model_name generator_names ->
      forall e, get_norm_layer env norm_layer = Raise e ->
      r = Raise e /\ exists msg, e = ImportError msg).
Proof.
  intros r.
  destruct (in_dec string_dec model_name generator_names) as [Hin | Hnot].
  - pose proof (generator_outcome env patch_size input_nc output_nc init_num_filters
                  model_name norm_layer use_dropout Hin) as Hout.
    cbv zeta in Hout. fold r in Hout.
    split; [ split; [ intros (msg' & Hr') Hnot | intros Hnot; contradiction ]
           | split; [ | split ] ].
    + destruct (get_norm_layer env norm_layer) as [[c | e] | e] eqn:Hnorm.
      * destruct (is_resnet_name model_name); destruct Hout as (x & Hr); congruence.
      * destruct (is_resnet_name model_name); destruct Hout as (x & Hr); congruence.
      * apply get_norm_layer_raise in Hnorm. destruct Hnorm as (_ & _ & msg & ->).
        congruence.
    + intros v Hv. split; [ assumption | ].
      destruct (get_norm_layer env norm_layer) as [[c | e] | e] eqn:Hnorm.
      * destruct (is_resnet_name model_name); destruct Hout as (x & Hr);
          [ congruence | exists x; congruence ].
      * destruct (is_resnet_name model_name); destruct Hout as (x & Hr); congruence.
      * congruence.
    + intros Hname (c & Hc). rewrite Hc in Hout.
      destruct Hname as [-> | ->]; exact Hout.
    + intros _ e He. rewrite He in Hout. split; [ exact Hout | ].
      apply get_norm_layer_raise in He. destruct He as (_ & _ & Hmsg). exact Hmsg.
  - pose proof (generator_unknown_name env patch_size input_nc output_nc init_num_filters
                  model_name norm_layer use_dropout Hnot) as Hr.
    fold r in Hr.
    split; [ split; [ intros _; assumption | intros _; eauto ] | split; [ | split ] ].
    + intros v Hv. congruence.
    + intros Hname. exfalso. apply Hnot. destruct Hname as [-> | ->]; simpl; tauto.
    + intros Hin. contradiction.
Qed.

(** The third part of [build_generator_model_dispatch] at work: the
    'unet_256' generator with the default hyperparameters is returned. *)
Lemma build_generator_model_dispatch_witness :
  exists m,
    build_generator_model channels_last_backend [256; 256] 3 3 64 "unet_256" "batch"
      false = Ok (VModel m).
Proof.
  apply (proj1 (proj2 (proj2 (build_generator_model_dispatch channels_last_backend
                                [256; 256] 3 3 64 "unet_256" "batch" false)))).
  - right; reflexivity.
  - exists BatchNormalization; reflexivity.
Defined.

(** ** Discriminators *)

Lemma nlayer_loop_ok (init_num_filters : Z) (kernel_size : Z * Z) (use_bias : bool)
    (c : norm_class) (axis : Z) (use_dropout : bool) (rate : Q)
    (idx : list Z) (model : list seq_item) :
  nlayer_loop init_num_filters kernel_size use_bias (NormClass c) axis use_dropout rate
    idx model
  = Ok (model ++ flat_map (nlayer_stage init_num_filters kernel_size use_bias c axis
                             use_dropout rate) idx).
Proof.
  revert model; induction idx as [ | n idx IH]; intros model; simpl.
  - now rewrite app_nil_r.
  - rewrite IH. unfold model_add, nlayer_stage.
    destruct use_dropout; simpl; now rewrite <- !app_assoc.
Qed.

(** The PatchGAN branch, for an integer [n_layers] other than 0 and -1 and a
    normalization class. *)
Lemma build_nlayer_discriminator_patch (env : backend) (patch_size : list Z) (input_nc : Z)
    (init_num_filters n_layers : Z) (norm_layer : string) (use_sigmoid use_dropout : bool)
    (rate : Q) (c : norm_class) :
  get_norm_layer env norm_layer = Ok (NormClass c) ->
  n_layers <> 0 -> n_layers <> -1 ->
  build_nlayer_discriminator env patch_size input_nc init_num_filters n_layers norm_layer
    use_sigmoid use_dropout rate
  = Ok (Sequential
          (patchgan_items (input_shape_of env patch_size input_nc) init_num_filters n_layers
             (String.eqb norm_layer "instance") c (channel_axis_of env)
             (if use_sigmoid then PStr "sigmoid" else PNone) use_dropout rate)).
Proof.
  intros Hnorm H0 H1. unfold build_nlayer_discriminator. rewrite Hnorm.
  cbn [bind].
  destruct (Z.eqb_spec n_layers 0) as [ | _]; [ contradiction | ].
  destruct (Z.eqb_spec n_layers (-1)) as [ | _]; [ contradiction | ].
  cbn [bind py_range_num]. rewrite nlayer_loop_ok. cbn [bind new_norm].
  assert (Hconv : new_conv2d (final_conv (4, 4) (if use_sigmoid then PStr "sigmoid" else PNone))
                  = Ok (Conv2D (final_conv (4, 4)
                                  (if use_sigmoid then PStr "sigmoid" else PNone))))
    by (destruct use_sigmoid; reflexivity).
  rewrite Hconv. cbn [bind].
  unfold model_add, patchgan_items. simpl. now rewrite <- !app_assoc.
Qed.

(** The pixel-wise branch: [build_pixel_gan] is handed [use_sigmoid], a
    boolean, for the activation of its last convolution. *)
Lemma build_nlayer_discriminator_pixel (env : backend) (patch_size : list Z) (input_nc : Z)
    (init_num_filters : Z) (norm_layer : string) (use_sigmoid use_dropout : bool)
    (rate : Q) :
  build_nlayer_discriminator env patch_size input_nc init_num_filters 0 norm_layer
    use_sigmoid use_dropout rate
  = match get_norm_layer env norm_layer with
    | Raise e => Raise e
    | Ok (NormExc _) => Raise (TypeError "'NotImplementedError' object is not callable")
    | Ok (NormClass _) =>
        Raise (TypeError "Could not interpret activation function identifier")
    end.
Proof.
  unfold build_nlayer_discriminator.
  destruct (get_norm_layer env norm_layer) as [[c | e] | e]; reflexivity.
Qed.

Lemma build_nlayer_discriminator_pixel_raises (env : backend) (patch_size : list Z)
    (input_nc : Z) (init_num_filters : Z) (norm_layer : string)
    (use_sigmoid use_dropout : bool) (rate : Q) :
  raises (build_nlayer_discriminator env patch_size input_nc init_num_filters 0 norm_layer
            use_sigmoid use_dropout rate).
Proof.
  rewrite build_nlayer_discriminator_pixel. unfold raises.
  destruct (get_norm_layer env norm_layer) as [[c | e] | e]; cbn; eauto.
Qed.

(** The image-wise branch: [n_layers] is a float by the time [range] gets it. *)
Lemma build_nlayer_discriminator_image (env : backend) (patch_size : list Z) (input_nc : Z)
    (init_num_filters : Z) (norm_layer : string) (use_sigmoid use_dropout : bool)
    (rate : Q) :
  build_nlayer_discriminator env patch_size input_nc init_num_filters (-1) norm_layer
    use_sigmoid use_dropout rate
  = match get_norm_layer env norm_layer with
    | Raise e => Raise e
    | Ok _ =>
        match patch_size with
        | [] => Raise (IndexError "index out of range")
        | _ :: _ => Raise (TypeError "'float' object cannot be interpreted as an integer")
        end
    end.
Proof.
  unfold build_nlayer_discriminator.
  destruct (get_norm_layer env norm_layer) as [nv | e]; cbn [bind]; [ | reflexivity ].
  destruct patch_size as [ | p rest]; reflexivity.
Qed.

(** A discriminator is returned only when [get_norm_layer] gave a class. *)
Lemma build_nlayer_discriminator_ok_inv (env : backend) (patch_size : list Z)
    (input_nc init_num_filters n_layers : Z) (norm_layer : string)
    (use_sigmoid use_dropout : bool) (rate : Q) (m : model) :
  build_nlayer_discriminator env patch_size input_nc init_num_filters n_layers norm_layer
    use_sigmoid use_dropout rate = Ok m ->
  exists c, get_norm_layer env norm_layer = Ok (NormClass c).
Proof.
  destruct (Z.eq_dec n_layers (-1)) as [-> | Hn1].
  { rewrite build_nlayer_discriminator_image.
    destruct (get_norm_layer env norm_layer) as [nv | e]; [ | discriminate ].
    destruct patch_size; discriminate. }
  unfold build_nlayer_discriminator.
  destruct (get_norm_layer env norm_layer) as [[c | e] | e]; cbn [bind];
    [ eauto | | discriminate ].
  destruct (Z.eqb_spec n_layers 0) as [-> | _]; [ discriminate | ].
  destruct (Z.eqb_spec n_layers (-1)) as [ | _]; [ contradiction | ].
  cbn [bind py_range_num]. intros H. exfalso.
  apply bind_ok_inv in H. destruct H as (model' & Hloop & H).
  cbn in H. discriminate.
Qed.

Lemma py_range_cons (lo hi : Z) : lo < hi -> py_range lo hi = lo :: py_range (lo + 1) hi.
Proof.
  intros H. unfold py_range.
  replace (Z.to_nat (hi - lo)) with (S (Z.to_nat (hi - (lo + 1)))) by lia.
  simpl. f_equal; [ lia | ].
  rewrite <- seq_shift, map_map. apply map_ext. intros k. lia.
Qed.

Lemma py_range_snoc (lo hi : Z) : lo <= hi -> py_range lo (hi + 1) = py_range lo hi ++ [hi].
Proof.
  intros H. unfold py_range.
  replace (Z.to_nat (hi + 1 - lo)) with (S (Z.to_nat (hi - lo))) by lia.
  rewrite seq_S, map_app. simpl. repeat f_equal. lia.
Qed.

Lemma model_convs_app (xs ys : list seq_item) :
  model_convs (Sequential (xs ++ ys))
  = model_convs (Sequential xs) ++ model_convs (Sequential ys).
Proof. unfold model_convs, model_layers. now rewrite !flat_map_app. Qed.

Lemma model_convs_stages (init_num_filters : Z) (kernel_size : Z * Z) (use_bias : bool)
    (c : norm_class) (axis : Z) (use_dropout : bool) (rate : Q) (idx : list Z) :
  model_convs (Sequential (flat_map (nlayer_stage init_num_filters kernel_size use_bias c
                                       axis use_dropout rate) idx))
  = map (fun n => disc_conv kernel_size use_bias
                    (PyInt (init_num_filters * Z.min (2 ^ n) 8)) (Some (2, 2))) idx.
Proof.
  induction idx as [ | n idx IH]; [ reflexivity | ].
  cbn [flat_map map]. rewrite model_convs_app, IH. f_equal.
  unfold nlayer_stage; destruct use_dropout; reflexivity.
Qed.

(** C5, evaluated on the code.  For [n_layers = 0] no PixelGAN is returned:
    [build_discriminator_model] raises, for every backend, size,
    normalization name and value of [use_sigmoid].  Unless [get_norm_layer]
    has raised before, the exception is a [TypeError]; with a normalization
    class it is the one raised when the last convolution is created, with
    [init_num_filters * 2] filters and the boolean [use_sigmoid] for its
    activation. *)
Theorem pixel_discriminator_final_conv (env : backend) (patch_size : list Z)
    (input_nc init_num_filters : Z) (norm_layer : string) (use_sigmoid : bool) :
  let r := build_discriminator_model env patch_size input_nc init_num_filters 0 norm_layer
             use_sigmoid in
  let final := pixel_conv (init_num_filters * 2) (String.eqb norm_layer "instance")
                 (Some (PBool use_sigmoid)) in
  raises r
  /\ (forall m, r <> Ok m)
  /\ (forall nv, get_norm_layer env norm_layer = Ok nv -> exists msg, r = Raise (TypeError msg))
  /\ (forall c, get_norm_layer env norm_layer = Ok (NormClass c) ->
      exists msg, new_conv2d final = Raise (TypeError msg) /\ r = Raise (TypeError msg)).
Proof.
  intros r final; subst r final. unfold build_discriminator_model.
  split; [ apply build_nlayer_discriminator_pixel_raises | ].
  rewrite build_nlayer_discriminator_pixel.
  split; [ | split ].
  - intros m. destruct (get_norm_layer env norm_layer) as [[c | e] | e]; discriminate.
  - intros nv ->. destruct nv; eauto.
  - intros c ->. eexists. split; reflexivity.
Qed.

Example pixel_discriminator_default :
  build_discriminator_model channels_last_backend [256; 256] 3 64 0 "batch" true
  = Raise (TypeError "Could not interpret activation function identifier").
Proof. vm_compute; reflexivity. Qed.

(** What [build_pixel_gan] assembles when it is handed the name of an
    activation: three 1x1 convolutions, the last with twice the initial
    filter count. *)
Example pixel_gan_with_activation_name :
  exists m,
    build_pixel_gan [256; 256; 3] 64 (NormClass BatchNormalization) (-1) false
      (PStr "sigmoid") = Ok m
    /\ map c_kernel_size (model_convs m) = [(1, 1); (1, 1); (1, 1)]
    /\ map c_filters (model_convs m) = [PyInt 64; PyInt 128; PyInt 128].
Proof. eexists; repeat split; vm_compute; reflexivity. Qed.

(** C9.  With [n_layers = -1], [build_discriminator_model] never returns: it
    raises for every backend, patch size and normalization name; and whenever
    [get_norm_layer] has not raised before and [patch_size[0]] exists, the
    exception is the [TypeError] of [range] on the float [n_layers]. *)
Theorem imagewise_discriminator_raises (env : backend) (patch_size : list Z)
    (input_nc init_num_filters : Z) (norm_layer : string) (use_sigmoid : bool) :
  let r := build_discriminator_model env patch_size input_nc init_num_filters (-1)
             norm_layer use_sigmoid in
  raises r
  /\ (forall nv, get_norm_layer env norm_layer = Ok nv -> patch_size <> [] ->
      r = Raise (TypeError "'float' object cannot be interpreted as an integer")).
Proof.
  intros r; subst r. unfold build_discriminator_model.
  rewrite build_nlayer_discriminator_image. unfold raises. split.
  - destruct (get_norm_layer env norm_layer); [ destruct patch_size | ]; eauto.
  - intros nv -> Hps. destruct patch_size; [ congruence | reflexivity ].
Qed.

(** The second part of [imagewise_discriminator_raises] at work on a
    256x256 patch. *)
Lemma imagewise_discriminator_raises_witness :
  build_discriminator_model channels_last_backend [256; 256] 3 64 (-1) "batch" false
  = Raise (TypeError "'float' object cannot be interpreted as an integer").
Proof.
  apply (proj2 (imagewise_discriminator_raises channels_last_backend [256; 256] 3 64
                  "batch" false) (NormClass BatchNormalization));
    [ reflexivity | discriminate ].
Defined.

(** Filter counts along a PatchGAN with [n_layers >= 1]. *)
Lemma patchgan_filters (input_shape : list Z) (init_num_filters n_layers : Z)
    (use_bias : bool) (c : norm_class) (axis : Z) (final_activation : pyarg)
    (use_dropout : bool) (rate : Q) :
  1 <= n_layers ->
  map c_filters
    (model_convs (Sequential (patchgan_items input_shape init_num_filters n_layers use_bias
                                c axis final_activation use_dropout rate)))
  = map (fun n => PyInt (init_num_filters * Z.min (2 ^ n) 8)) (py_range 0 (n_layers + 1))
    ++ [PyInt 1].
Proof.
  intros Hn. unfold patchgan_items.
  rewrite !model_convs_app, model_convs_stages.
  rewrite (py_range_snoc 0 n_layers), (py_range_cons 0 n_layers) by lia.
  cbn [map]. rewrite !map_app, map_map. cbn.
  unfold times_min_pow2. destruct (Z.ltb_spec n_layers 0) as [ | _]; [ lia | ].
  rewrite Z.mul_1_r, <- app_assoc. reflexivity.
Qed.

(** C10.  In every model [build_nlayer_discriminator] returns for an integer
    [n_layers >= 1], the convolutions at depths [0 .. n_layers] have
    [init_num_filters * min(2 ** n, 8)] filters and the last one has 1; for a
    filter count [init_num_filters >= 0] none of the former exceeds
    [8 * init_num_filters]. *)
Theorem nlayer_discriminator_filters (env : backend) (patch_size : list Z)
    (input_nc init_num_filters n_layers : Z) (norm_layer : string)
    (use_sigmoid use_dropout : bool) (rate : Q) (m : model) :
  1 <= n_layers ->
  build_nlayer_discriminator env patch_size input_nc init_num_filters n_layers norm_layer
    use_sigmoid use_dropout rate = Ok m ->
  map c_filters (model_convs m)
  = map (fun n => PyInt (init_num_filters * Z.min (2 ^ n) 8)) (py_range 0 (n_layers + 1))
    ++ [PyInt 1]
  /\ (0 <= init_num_filters ->
      Forall (fun f => exists z, f = PyInt z /\ z <= 8 * init_num_filters)
        (removelast (map c_filters (model_convs m)))).
Proof.
  intros Hn Hm.
  destruct (build_nlayer_discriminator_ok_inv _ _ _ _ _ _ _ _ _ _ Hm) as (c & Hc).
  rewrite (build_nlayer_discriminator_patch env patch_size input_nc init_num_filters
             n_layers norm_layer use_sigmoid use_dropout rate c Hc) in Hm by lia.
  injection Hm as <-. rewrite patchgan_filters by lia.
  split; [ reflexivity | ].
  intros Hinit. rewrite removelast_last.
  apply Forall_forall. intros f Hf. apply in_map_iff in Hf.
  destruct Hf as (n & <- & _). eexists; split; [ reflexivity | ].
  assert (Z.min (2 ^ n) 8 <= 8) by lia. nia.
Qed.

(** The hypotheses of [nlayer_discriminator_filters] are met by the default
    three-layer PatchGAN with 64 initial filters. *)
Lemma nlayer_discriminator_filters_witness :
  exists m,
    build_nlayer_discriminator channels_last_backend [256; 256] 3 64 3 "batch" false false
      0.5 = Ok m
    /\ map c_filters (model_convs m) = [PyInt 64; PyInt 128; PyInt 256; PyInt 512; PyInt 1].
Proof.
  eexists. split; [ vm_compute; reflexivity | ].
  apply (proj1 (nlayer_discriminator_filters channels_last_backend [256; 256] 3 64 3
                  "batch" false false 0.5 _ ltac:(lia) eq_refl)).
Defined.

(** ** The normalization choice *)

Lemma unet_layer_norm_bias (use_bias : bool) (c : norm_class) (axis : Z) (rate : Q)
    (l : layer) :
  unet_layer use_bias c axis rate l -> uses_norm c l /\ bias_set use_bias l.
Proof. destruct 1; simpl; auto. Qed.

(** A returned generator is a U-Net: its name is one of the two U-Net names
    and its layers are those of [unet_layer]. *)
Lemma generator_model_layers (env : backend) (patch_size : list Z)
    (input_nc output_nc init_num_filters : Z) (model_name norm_layer : string)
    (use_dropout : bool) (m : model) :
  build_generator_model env patch_size input_nc output_nc init_num_filters model_name
    norm_layer use_dropout = Ok (VModel m) ->
  exists c,
    get_norm_layer env norm_layer = Ok (NormClass c)
    /\ (model_name = "unet_128" \/ model_name = "unet_256")
    /\ Forall_model (unet_layer (String.eqb norm_layer "instance") c
                       (channel_axis_of env) 0.5) m.
Proof.
  intros Hgen.
  destruct (in_dec string_dec model_name generator_names) as [Hin | Hnot];
    [ | rewrite generator_unknown_name in Hgen by assumption; discriminate ].
  simpl in Hin. destruct Hin as [<- | [<- | [<- | [<- | []]]]].
  1, 2: unfold build_generator_model in Hgen; simpl String.eqb in Hgen; cbv iota in Hgen;
    apply bind_ok_inv in Hgen; destruct Hgen as (g & Hg & Hm); injection Hm as <-;
    destruct (build_unet_ok_inv _ _ _ _ _ _ _ _ _ _ _ Hg) as (c & Hc);
    match type of Hg with build_unet ?e ?p ?i ?o ?f ?n ?lv ?d ?r true = _ =>
      destruct (build_unet_ok e p i o f n lv d r c Hc) as (dc & Heq & Hl & _)
    end;
    rewrite Heq in Hg; injection Hg as <-;
    exists c; split; [ assumption | split; [ tauto | ] ];
    simpl; auto 10 with graph.
  1, 2: exfalso; rewrite resnet_generator_eq in Hgen by auto;
    destruct (get_norm_layer env norm_layer); discriminate.
Qed.

Lemma Forall_item_stage (P : layer -> Prop) (init_num_filters : Z) (kernel_size : Z * Z)
    (use_bias : bool) (c : norm_class) (axis : Z) (use_dropout : bool) (rate : Q)
    (idx : list Z) :
  (forall f s, P (Conv2D (disc_conv kernel_size use_bias f s))) ->
  P (Normalization c axis) -> P (Dropout rate) -> P (LeakyReLU 0.2) ->
  Forall (Forall_item P)
    (flat_map (nlayer_stage init_num_filters kernel_size use_bias c axis use_dropout rate)
       idx).
Proof.
  intros Hconv Hnorm Hdrop Hleaky.
  induction idx as [ | n idx IH]; [ constructor | ].
  cbn [flat_map]. apply Forall_app; split; [ | exact IH ].
  unfold nlayer_stage; destruct use_dropout; each_item.
Qed.

(** A returned discriminator is a PatchGAN: [n_layers] is neither 0 nor -1,
    [get_norm_layer] gave a class, and the items are those of
    [patchgan_items]. *)
Lemma build_nlayer_discriminator_returned (env : backend) (patch_size : list Z)
    (input_nc init_num_filters n_layers : Z) (norm_layer : string)
    (use_sigmoid use_dropout : bool) (rate : Q) (m : model) :
  build_nlayer_discriminator env patch_size input_nc init_num_filters n_layers norm_layer
    use_sigmoid use_dropout rate = Ok m ->
  n_layers <> 0 /\ n_layers <> -1
  /\ exists c,
       get_norm_layer env norm_layer = Ok (NormClass c)
       /\ m = Sequential
                (patchgan_items (input_shape_of env patch_size input_nc) init_num_filters
                   n_layers (String.eqb norm_layer "instance") c (channel_axis_of env)
                   (if use_sigmoid then PStr "sigmoid" else PNone) use_dropout rate).
Proof.
  intros Hm.
  destruct (build_nlayer_discriminator_ok_inv _ _ _ _ _ _ _ _ _ _ Hm) as (c & Hc).
  assert (H0 : n_layers <> 0).
  { intros ->.
    destruct (build_nlayer_discriminator_pixel_raises env patch_size input_nc
                init_num_filters norm_layer use_sigmoid use_dropout rate) as (e & He).
    congruence. }
  assert (H1 : n_layers <> -1).
  { intros ->. rewrite build_nlayer_discriminator_image, Hc in Hm.
    destruct patch_size; discriminate. }
  split; [ exact H0 | split; [ exact H1 | ] ].
  exists c. split; [ exact Hc | ].
  rewrite (build_nlayer_discriminator_patch env patch_size input_nc init_num_filters
             n_layers norm_layer use_sigmoid use_dropout rate c Hc H0 H1) in Hm.
  congruence.
Qed.

Lemma patchgan_uses_norm (input_shape : list Z) (init_num_filters n_layers : Z)
    (use_bias : bool) (c : norm_class) (axis : Z) (final_activation : pyarg)
    (use_dropout : bool) (rate : Q) :
  Forall_model (uses_norm c)
    (Sequential (patchgan_items input_shape init_num_filters n_layers use_bias c axis
                   final_activation use_dropout rate)).
Proof.
  unfold patchgan_items. simpl. each_item.
  apply Forall_app; split; [ apply Forall_item_stage; simpl; auto | each_item ].
Qed.

(** Along a PatchGAN every convolution but the last is created with the
    [use_bias] value of the builder; the last one is created without. *)
Lemma patchgan_use_bias (input_shape : list Z) (init_num_filters n_layers : Z)
    (use_bias : bool) (c : norm_class) (axis : Z) (final_activation : pyarg)
    (use_dropout : bool) (rate : Q) :
  map c_use_bias
    (model_convs (Sequential (patchgan_items input_shape init_num_filters n_layers use_bias
                                c axis final_activation use_dropout rate)))
  = repeat (Some use_bias) (Z.to_nat (Z.max n_layers 1) + 1) ++ [None].
Proof.
  unfold patchgan_items.
  rewrite !model_convs_app, model_convs_stages, !map_app, map_map.
  cbn [model_convs model_layers flat_map conv_of app map disc_conv final_conv c_use_bias
       layer_calls].
  rewrite map_const, py_range_length.
  replace (Z.to_nat (Z.max n_layers 1) + 1)%nat
    with (S (Z.to_nat (n_layers - 1) + 1))%nat by lia.
  cbn [repeat app]. f_equal. rewrite repeat_app. cbn [repeat]. rewrite <- app_assoc.
  reflexivity.
Qed.

(** C6 as stated fails: with 'batch', the default three-layer discriminator
    holds a convolution whose bias is not disabled.  Its last [Conv2D] is
    created without a [use_bias] argument. *)
Lemma discriminator_final_conv_bias_not_disabled :
  exists m a,
    build_discriminator_model channels_last_backend [256; 256] 3 64 3 "batch" false = Ok m
    /\ In a (model_convs m)
    /\ c_use_bias a = None
    /\ c_use_bias a <> Some false.
Proof.
  eexists; eexists. split; [ vm_compute; reflexivity | ].
  split; [ do 4 right; left; reflexivity | ].
  split; [ reflexivity | discriminate ].
Qed.

(** C6, as the code has it.  [get_norm_layer] maps 'batch' to
    [BatchNormalization] and 'instance' to [InstanceNormalization], raising
    [ImportError] when [keras_contrib] is missing.  Every normalization layer
    of every returned generator or discriminator is of the class so chosen.
    Every convolution and transposed convolution of a returned generator, and
    every convolution of a returned discriminator but the last, is created
    with [use_bias = (norm_layer == 'instance')]; the last convolution of a
    discriminator is created without a [use_bias] argument. *)
Theorem norm_layer_choice (env : backend) (patch_size : list Z)
    (input_nc output_nc init_num_filters n_layers : Z) (model_name norm_layer : string)
    (use_dropout use_sigmoid : bool) :
  let gen := build_generator_model env patch_size input_nc output_nc init_num_filters
               model_name norm_layer use_dropout in
  let dis := build_discriminator_model env patch_size input_nc init_num_filters n_layers
               norm_layer use_sigmoid in
  let use_bias := String.eqb norm_layer "instance" in
  get_norm_layer env "batch" = Ok (NormClass BatchNormalization)
  /\ (keras_contrib_installed env = true ->
      get_norm_layer env "instance" = Ok (NormClass InstanceNormalization))
  /\ (keras_contrib_installed env = false ->
      exists msg, get_norm_layer env "instance" = Raise (ImportError msg))
  /\ (forall m, gen = Ok (VModel m) \/ dis = Ok m ->
      exists c,
        get_norm_layer env norm_layer = Ok (NormClass c)
        /\ ((norm_layer = "batch" /\ c = BatchNormalization /\ use_bias = false)
            \/ (norm_layer = "instance" /\ c = InstanceNormalization /\ use_bias = true))
        /\ Forall_model (uses_norm c) m)
  /\ (forall m, gen = Ok (VModel m) -> Forall_model (bias_set use_bias) m)
  /\ (forall m, dis = Ok m ->
      map c_use_bias (model_convs m)
      = repeat (Some use_bias) (Z.to_nat (Z.max n_layers 1) + 1) ++ [None]).
Proof.
  intros gen dis use_bias.
  assert (Hclass : forall c, get_norm_layer env norm_layer = Ok (NormClass c) ->
            (norm_layer = "batch" /\ c = BatchNormalization /\ use_bias = false)
            \/ (norm_layer = "instance" /\ c = InstanceNormalization /\ use_bias = true)).
  { intros c Hc. apply get_norm_layer_class in Hc. subst use_bias.
    destruct Hc as [[-> ->] | (-> & -> & _)]; [ left | right ]; auto. }
  split; [ reflexivity | ].
  split; [ intros Hk; rewrite get_norm_layer_instance, Hk; reflexivity | ].
  split; [ intros Hk; rewrite get_norm_layer_instance, Hk; eauto | ].
  split; [ | split ].
  - intros m [Hgen | Hdis].
    + destruct (generator_model_layers _ _ _ _ _ _ _ _ _ Hgen) as (c & Hc & _ & Hl).
      exists c; repeat split; auto.
      eapply Forall_model_impl; [ | exact Hl ]. intros l Hl'.
      apply (unet_layer_norm_bias _ _ _ _ _ Hl').
    + destruct (build_nlayer_discriminator_returned _ _ _ _ _ _ _ _ _ _ Hdis)
        as (_ & _ & c & Hc & ->).
      exists c; repeat split; auto. apply patchgan_uses_norm.
  - intros m Hgen.
    destruct (generator_model_layers _ _ _ _ _ _ _ _ _ Hgen) as (c & Hc & _ & Hl).
    eapply Forall_model_impl; [ | exact Hl ].
    intros l Hl'. apply (unet_layer_norm_bias _ _ _ _ _ Hl').
  - intros m Hdis.
    destruct (build_nlayer_discriminator_returned _ _ _ _ _ _ _ _ _ _ Hdis)
      as (_ & _ & c & Hc & ->).
    apply patchgan_use_bias.
Qed.

(** [norm_layer_choice] at work: the default discriminator under instance
    normalization uses [InstanceNormalization] throughout, and its four
    convolutions before the last are created with [use_bias=True]. *)
Lemma norm_layer_choice_witness :
  exists m,
    build_discriminator_model channels_last_backend [256; 256] 3 64 3 "instance" false = Ok m
    /\ Forall_model (uses_norm InstanceNormalization) m
    /\ map c_use_bias (model_convs m)
       = [Some true; Some true; Some true; Some true; None].
Proof.
  pose proof (norm_layer_choice channels_last_backend [256; 256] 3 3 64 3 "unet_128"
                "instance" false false) as (_ & _ & _ & Hnorm & _ & Hbias).
  exists (Sequential
            (patchgan_items [256; 256; 3] 64 3 true InstanceNormalization (-1) PNone
               false 0.5)).
  split; [ reflexivity | ]. split.
  - destruct (Hnorm _ (or_intror eq_refl)) as (c & Hc & _ & Hn).
    injection Hc as <-. exact Hn.
  - exact (Hbias _ eq_refl).
Defined.

(** The U-Net side of [norm_layer_choice]: under 'batch' every convolution
    and transposed convolution of 'unet_128' is created with
    [use_bias=False]. *)
Example unet_convs_bias_disabled :
  exists m,
    build_generator_model channels_last_backend [128; 128] 3 3 64 "unet_128" "batch" false
      = Ok (VModel m)
    /\ map c_use_bias (model_convs m) = repeat (Some false) 8
    /\ map c_use_bias (model_deconvs m) = repeat (Some false) 6.
Proof. eexists; repeat split; vm_compute; reflexivity. Qed.

(** ** Exception values that are returned *)

(** C8 as stated fails: [build_resnet] with a padding other than 'zero' does
    raise when the normalization is 'instance' and [keras_contrib] is
    missing, since [get_norm_layer] runs before the padding is looked at. *)
Lemma build_resnet_other_padding_raises :
  exists msg,
    build_resnet no_contrib_backend [256; 256] 3 3 64 "instance" "reflect" 6 false 0.5
    = Raise (ImportError msg).
Proof. eexists; vm_compute; reflexivity. Qed.

(** C8, as the code has it.  For a name other than 'batch' and 'instance',
    [get_norm_layer] returns a [NotImplementedError] instance and raises
    nothing.  [build_resnet] with a padding other than 'zero' returns a
    [NotImplementedError] instance whenever [get_norm_layer] has not raised
    its [ImportError] first, that is unless the normalization is 'instance'
    with [keras_contrib] missing. *)
Theorem unrecognized_names_return_exceptions (env : backend) :
  (forall layer_name,
      layer_name <> "batch" -> layer_name <> "instance" ->
      exists msg, get_norm_layer env layer_name = Ok (NormExc (NotImplementedError msg)))
  /\ (forall patch_size input_nc output_nc init_num_filters norm_layer padding_layer
        n_blocks use_dropout rate,
      padding_layer <> "zero" ->
      norm_layer <> "instance" \/ keras_contrib_installed env = true ->
      build_resnet env patch_size input_nc output_nc init_num_filters norm_layer
        padding_layer n_blocks use_dropout rate
      = Ok (VExc (NotImplementedError "Only zero padding is currently supported."))).
Proof.
  split.
  - intros layer_name Hb Hi. rewrite get_norm_layer_other by assumption. eauto.
  - intros patch_size input_nc output_nc init_num_filters norm_layer padding_layer
      n_blocks use_dropout rate Hpad Havail.
    unfold build_resnet.
    destruct (get_norm_layer env norm_layer) as [nv | e] eqn:Hnorm.
    + cbn [bind]. apply String.eqb_neq in Hpad. now rewrite Hpad.
    + apply get_norm_layer_raise in Hnorm. destruct Hnorm as (Hname & Hk & _).
      destruct Havail; congruence.
Qed.

(** Both parts of [unrecognized_names_return_exceptions] at work. *)
Lemma unrecognized_names_return_exceptions_witness :
  (exists msg,
      get_norm_layer no_contrib_backend "layer" = Ok (NormExc (NotImplementedError msg)))
  /\ build_resnet no_contrib_backend [256; 256] 3 3 64 "batch" "reflect" 6 false 0.5
     = Ok (VExc (NotImplementedError "Only zero padding is currently supported.")).
Proof.
  split.
  - apply (proj1 (unrecognized_names_return_exceptions no_contrib_backend));
      discriminate.
  - apply (proj2 (unrecognized_names_return_exceptions no_contrib_backend));
      [ discriminate | left; discriminate ].
Defined.

(** * Further properties of the builders *)

(** ** Chains *)

Lemma chain_app (xs ys : list layer) (t : tensor) :
  chain (xs ++ ys) t = chain ys (chain xs t).
Proof. unfold chain. apply fold_left_app. Qed.

Lemma layer_calls_chain (ls : list layer) (t : tensor) :
  layer_calls (chain ls t) = layer_calls t ++ ls.
Proof.
  revert t; induction ls as [ | l ls IH]; intros t; simpl.
  - now rewrite app_nil_r.
  - change (layer_calls (chain ls (Call l t)) = layer_calls t ++ l :: ls).
    rewrite IH. simpl. now rewrite <- app_assoc.
Qed.

Lemma spatial_size_chain (hw : Z * Z) (ls : list layer) (t : tensor) :
  spatial_size hw (chain ls t) = layers_size (spatial_size hw t) ls.
Proof.
  revert t; induction ls as [ | l ls IH]; intros t; [ reflexivity | ].
  change (spatial_size hw (chain ls (Call l t))
          = layers_size (layer_size l (spatial_size hw t)) ls).
  now rewrite IH.
Qed.

Lemma layers_size_app (hw : Z * Z) (xs ys : list layer) :
  layers_size hw (xs ++ ys) = layers_size (layers_size hw xs) ys.
Proof. unfold layers_size. apply fold_left_app. Qed.

Lemma ceil_div_1 (x : Z) : ceil_div x 1 = x.
Proof. unfold ceil_div. rewrite Z.div_1_r. lia. Qed.

Lemma py_range_empty (lo hi : Z) : hi <= lo -> py_range lo hi = [].
Proof.
  intros H. unfold py_range. replace (Z.to_nat (hi - lo)) with 0%nat by lia. reflexivity.
Qed.

(** ** The U-Net as a chain *)

Lemma unet_encoder_chain (init_num_filters : Z) (use_bias : bool) (c : norm_class)
    (axis : Z) (idx : list Z) (prev : tensor) (nodes : list tensor) :
  exists nodes',
    unet_encoder init_num_filters use_bias (NormClass c) axis idx prev nodes
    = Ok (chain (flat_map (unet_down_stage init_num_filters use_bias c axis) idx) prev,
          nodes').
Proof.
  revert prev nodes; induction idx as [ | i idx IH]; intros prev nodes.
  - exists nodes; reflexivity.
  - cbn [unet_encoder new_norm bind flat_map]. rewrite chain_app. apply IH.
Qed.

Lemma unet_decoder_chain (init_num_filters : Z) (use_bias : bool) (c : norm_class)
    (axis : Z) (use_dropout : bool) (rate : Q) (idx : list Z) (nodes : list tensor)
    (deconv : tensor) :
  unet_decoder init_num_filters use_bias (NormClass c) axis use_dropout rate true
    idx nodes deconv
  = Ok (chain (flat_map (unet_up_stage init_num_filters use_bias c axis use_dropout rate)
                 idx) deconv).
Proof.
  revert deconv; induction idx as [ | i idx IH]; intros deconv; [ reflexivity | ].
  cbn [unet_decoder new_norm bind flat_map negb]. rewrite chain_app, IH.
  destruct use_dropout; reflexivity.
Qed.

(** With a normalization class and [autoencoder] on, [build_unet] returns
    the layers of [unet_layers] called one after the other on the input. *)
Lemma build_unet_chain (env : backend) (patch_size : list Z) (input_nc output_nc : Z)
    (init_num_filters : Z) (norm_layer : string) (n_levels : Z) (use_dropout : bool)
    (rate : Q) (c : norm_class) :
  get_norm_layer env norm_layer = Ok (NormClass c) ->
  let inputs := Input (input_shape_of env patch_size input_nc) (Some "input1") in
  build_unet env patch_size input_nc output_nc init_num_filters norm_layer n_levels
    use_dropout rate true
  = Ok (Model inputs
          (chain (unet_layers init_num_filters output_nc (String.eqb norm_layer "instance")
                    c (channel_axis_of env) use_dropout rate n_levels) inputs)).
Proof.
  intros Hnorm inputs. unfold build_unet. rewrite Hnorm. cbn [bind].
  fold inputs.
  match goal with |- context [unet_encoder ?i ?b _ ?a ?idx ?p ?ns] =>
    destruct (unet_encoder_chain i b c a idx p ns) as (nodes & ->)
  end.
  cbn [bind]. rewrite unet_decoder_chain. cbn [bind new_norm negb].
  unfold unet_layers. rewrite !chain_app. reflexivity.
Qed.

Lemma build_unet_chain_inv (env : backend) (patch_size : list Z) (input_nc output_nc : Z)
    (init_num_filters : Z) (norm_layer : string) (n_levels : Z) (use_dropout : bool)
    (rate : Q) (m : model) :
  build_unet env patch_size input_nc output_nc init_num_filters norm_layer n_levels
    use_dropout rate true = Ok m ->
  exists c,
    get_norm_layer env norm_layer = Ok (NormClass c)
    /\ model_layers m
       = unet_layers init_num_filters output_nc (String.eqb norm_layer "instance") c
           (channel_axis_of env) use_dropout rate n_levels
    /\ (forall hw, model_size hw m = layers_size hw (model_layers m))
    /\ model_input m = Some (Input (input_shape_of env patch_size input_nc) (Some "input1")).
Proof.
  intros Hm. destruct (build_unet_ok_inv _ _ _ _ _ _ _ _ _ _ _ Hm) as (c & Hc).
  rewrite (build_unet_chain env patch_size input_nc output_nc init_num_filters norm_layer
             n_levels use_dropout rate c Hc) in Hm.
  injection Hm as <-. exists c. split; [ assumption | ].
  cbn [model_layers model_size model_input]. rewrite layer_calls_chain. cbn [layer_calls app].
  repeat split. intros hw. now rewrite spatial_size_chain.
Qed.

Lemma filter_flat_map_length {A : Type} (p : layer -> bool) (f : A -> list layer)
    (k : nat) (xs : list A) :
  (forall x, List.length (filter p (f x)) = k) ->
  List.length (filter p (flat_map f xs)) = (k * List.length xs)%nat.
Proof.
  intros Hk. induction xs as [ | x xs IH]; simpl; [ lia | ].
  rewrite filter_app, length_app, Hk, IH. lia.
Qed.

Lemma layers_size_flat_map {A : Type} (f : A -> list layer) (g : Z * Z -> Z * Z)
    (xs : list A) (hw : Z * Z) :
  (forall x s, layers_size s (f x) = g s) ->
  layers_size hw (flat_map f xs) = Nat.iter (List.length xs) g hw.
Proof.
  intros Hg. revert hw. induction xs as [ | x xs IH]; intros hw; [ reflexivity | ].
  cbn [flat_map List.length]. rewrite layers_size_app, Hg, IH.
  symmetry. apply Nat.iter_succ_r.
Qed.

Lemma layer_size_unet_conv (use_bias : bool) (f : Z) (hw : Z * Z) :
  layer_size (Conv2D (unet_conv use_bias f)) hw = halve hw.
Proof. destruct hw; reflexivity. Qed.

Lemma layer_size_unet_deconv (use_bias : bool) (f : Z) (hw : Z * Z) :
  layer_size (Conv2DTranspose (unet_conv use_bias f)) hw = double hw.
Proof. destruct hw; reflexivity. Qed.

Lemma unet_down_stage_size (init_num_filters : Z) (use_bias : bool) (c : norm_class)
    (axis i : Z) (hw : Z * Z) :
  layers_size hw (unet_down_stage init_num_filters use_bias c axis i) = halve hw.
Proof. destruct hw; reflexivity. Qed.

Lemma unet_up_stage_size (init_num_filters : Z) (use_bias : bool) (c : norm_class)
    (axis : Z) (use_dropout : bool) (rate : Q) (i : Z) (hw : Z * Z) :
  layers_size hw (unet_up_stage init_num_filters use_bias c axis use_dropout rate i)
  = double hw.
Proof. destruct hw, use_dropout; reflexivity. Qed.

Lemma unet_layers_size (init_num_filters output_nc : Z) (use_bias : bool) (c : norm_class)
    (axis : Z) (use_dropout : bool) (rate : Q) (n_levels : Z) (hw : Z * Z) :
  let k := Z.to_nat (n_levels - 2) in
  layers_size hw (unet_layers init_num_filters output_nc use_bias c axis use_dropout rate
                    n_levels)
  = halve (Nat.iter (S k) double (Nat.iter (S (S k)) halve hw)).
Proof.
  intros k. unfold unet_layers. rewrite !layers_size_app.
  rewrite (layers_size_flat_map (unet_down_stage init_num_filters use_bias c axis) halve)
    by apply unet_down_stage_size.
  rewrite (layers_size_flat_map
             (unet_up_stage init_num_filters use_bias c axis use_dropout rate) double)
    by apply unet_up_stage_size.
  rewrite length_rev, py_range_length.
  replace (Z.to_nat (n_levels - 1 - 1)) with k by (subst k; lia).
  set (enc := Nat.iter k halve _).
  assert (Henc : enc = Nat.iter (S k) halve hw).
  { subst enc. rewrite Nat.iter_succ_r. f_equal. destruct hw; reflexivity. }
  rewrite Henc.
  set (mid := layers_size _ [LeakyReLU 0.2; _; _; _]).
  assert (Hmid : mid = double (Nat.iter (S (S k)) halve hw)).
  { subst mid. cbn [Nat.iter]. destruct (halve (Nat.iter k halve hw)); reflexivity. }
  rewrite Hmid.
  set (dec := Nat.iter k double _).
  assert (Hdec : dec = Nat.iter (S k) double (Nat.iter (S (S k)) halve hw)).
  { subst dec. now rewrite <- Nat.iter_succ_r. }
  rewrite Hdec. destruct (Nat.iter (S k) double _). reflexivity.
Qed.

Lemma ceil_div_double (y : Z) : ceil_div (2 * y) 2 = y.
Proof.
  unfold ceil_div. replace (- (2 * y)) with ((- y) * 2) by lia.
  rewrite Z.div_mul by lia. lia.
Qed.

Lemma iter_halve_pow2 (j : nat) (a b : Z) :
  Nat.iter j halve (2 ^ Z.of_nat j * a, 2 ^ Z.of_nat j * b) = (a, b).
Proof.
  revert a b; induction j as [ | j IH]; intros a b.
  - change (Z.of_nat 0) with 0. rewrite Z.pow_0_r, !Z.mul_1_l. reflexivity.
  - rewrite Nat.iter_succ_r. unfold halve at 2. cbn [fst snd].
    rewrite Nat2Z.inj_succ, Z.pow_succ_r by lia.
    rewrite <- !Z.mul_assoc, !ceil_div_double. apply IH.
Qed.

Lemma iter_double_pow2 (j : nat) (a b : Z) :
  Nat.iter j double (a, b) = (2 ^ Z.of_nat j * a, 2 ^ Z.of_nat j * b).
Proof.
  induction j as [ | j IH].
  - change (Z.of_nat 0) with 0. rewrite Z.pow_0_r, !Z.mul_1_l. reflexivity.
  - rewrite Nat.iter_succ, IH. unfold double. cbn [fst snd].
    rewrite Nat2Z.inj_succ, Z.pow_succ_r by lia. f_equal; lia.
Qed.

(** ** U-Net: when it returns, its stages, its output size, its filters *)

(** X1.  [build_unet] returns a model exactly when [get_norm_layer] yields a
    layer class and either [autoencoder] is on or [n_levels <= 2]: with
    [autoencoder] off, the decoder loop must not run, since its first pass
    makes the refused [concatenate] call. *)
Theorem build_unet_returns_iff (env : backend) (patch_size : list Z)
    (input_nc output_nc init_num_filters : Z) (norm_layer : string) (n_levels : Z)
    (use_dropout : bool) (rate : Q) (autoencoder : bool) :
  (exists m, build_unet env patch_size input_nc output_nc init_num_filters norm_layer
               n_levels use_dropout rate autoencoder = Ok m)
  <-> (exists c, get_norm_layer env norm_layer = Ok (NormClass c))
      /\ (autoencoder = true \/ n_levels <= 2).
Proof.
  split.
  - intros (m & Hm). split; [ eapply build_unet_ok_inv; eassumption | ].
    destruct autoencoder; [ left; reflexivity | right ].
    destruct (Z_le_gt_dec n_levels 2) as [Hle | Hgt]; [ assumption | exfalso ].
    destruct (build_unet_skip_raises env patch_size input_nc output_nc init_num_filters
                norm_layer n_levels use_dropout rate ltac:(lia)) as (e & He).
    congruence.
  - intros ((c & Hc) & [-> | Hle]).
    + destruct (build_unet_ok env patch_size input_nc output_nc init_num_filters norm_layer
                  n_levels use_dropout rate c Hc) as (d & Hb & _).
      eauto.
    + destruct autoencoder.
      * destruct (build_unet_ok env patch_size input_nc output_nc init_num_filters
                    norm_layer n_levels use_dropout rate c Hc) as (d & Hb & _).
        eauto.
      * unfold build_unet. rewrite Hc, py_range_empty by lia.
        eexists. reflexivity.
Qed.

(** X2.  In every U-Net [build_unet] returns with [autoencoder] on, there are
    [k + 3] stride-2 convolutions and [k + 1] stride-2 transposed
    convolutions, where [k] is the number of passes of either loop,
    [max(n_levels - 2, 0)]: the last layer before tanh is a stride-2 [Conv2D],
    so down-sampling stages outnumber up-sampling stages by two.  Dropout is
    called once per pass of the decoder loop and nowhere else. *)
Theorem unet_stage_census (env : backend) (patch_size : list Z)
    (input_nc output_nc init_num_filters : Z) (norm_layer : string) (n_levels : Z)
    (use_dropout : bool) (rate : Q) (m : model) :
  build_unet env patch_size input_nc output_nc init_num_filters norm_layer n_levels
    use_dropout rate true = Ok m ->
  let k := Z.to_nat (n_levels - 2) in
  count_layers is_downsampling m = (k + 3)%nat
  /\ count_layers is_upsampling m = (k + 1)%nat
  /\ count_layers is_dropout m = (if use_dropout then k else 0%nat).
Proof.
  intros Hm k.
  destruct (build_unet_chain_inv _ _ _ _ _ _ _ _ _ _ Hm) as (c & _ & Hl & _).
  unfold count_layers. rewrite Hl. unfold unet_layers.
  rewrite !filter_app, !length_app.
  assert (Hlen : List.length (py_range 1 (n_levels - 1)) = k)
    by (rewrite py_range_length; subst k; lia).
  repeat split.
  - rewrite (filter_flat_map_length is_downsampling (unet_down_stage _ _ _ _) 1)
      by reflexivity.
    rewrite (filter_flat_map_length is_downsampling (unet_up_stage _ _ _ _ _ _) 0)
      by (intros; destruct use_dropout; reflexivity).
    rewrite length_rev, Hlen. simpl. lia.
  - rewrite (filter_flat_map_length is_upsampling (unet_down_stage _ _ _ _) 0)
      by reflexivity.
    rewrite (filter_flat_map_length is_upsampling (unet_up_stage _ _ _ _ _ _) 1)
      by (intros; destruct use_dropout; reflexivity).
    rewrite length_rev, Hlen. simpl. lia.
  - rewrite (filter_flat_map_length is_dropout (unet_down_stage _ _ _ _) 0)
      by reflexivity.
    rewrite (filter_flat_map_length is_dropout (unet_up_stage _ _ _ _ _ _)
               (if use_dropout then 1 else 0))
      by (intros; destruct use_dropout; reflexivity).
    rewrite length_rev, Hlen. destruct use_dropout; simpl; lia.
Qed.

(** The hypothesis of [unet_stage_census] is met by the seven-level U-Net
    with dropout. *)
Lemma unet_stage_census_witness :
  exists m,
    build_unet channels_last_backend [128; 128] 3 3 64 "batch" 7 true 0.5 true = Ok m
    /\ count_layers is_downsampling m = 8%nat
    /\ count_layers is_upsampling m = 6%nat
    /\ count_layers is_dropout m = 5%nat.
Proof.
  eexists. split; [ vm_compute; reflexivity | ].
  apply (unet_stage_census channels_last_backend [128; 128] 3 3 64 "batch" 7 true 0.5).
  vm_compute; reflexivity.
Defined.

(** X3.  The output of a U-Net built with [autoencoder] on has the size of
    the input halved [k + 2] times (rounding up), doubled [k + 1] times and
    halved once more, [k] as above.  For [n_levels >= 2] and a patch whose
    sides are multiples of [2 ** n_levels] that is a quarter of each side:
    the output is never of the size of the input. *)
Theorem unet_output_size (env : backend) (patch_size : list Z)
    (input_nc output_nc init_num_filters : Z) (norm_layer : string) (n_levels : Z)
    (use_dropout : bool) (rate : Q) (m : model) :
  build_unet env patch_size input_nc output_nc init_num_filters norm_layer n_levels
    use_dropout rate true = Ok m ->
  let k := Z.to_nat (n_levels - 2) in
  (forall hw,
      model_size hw m = halve (Nat.iter (S k) double (Nat.iter (S (S k)) halve hw)))
  /\ (2 <= n_levels ->
      forall a b,
        model_size (2 ^ n_levels * a, 2 ^ n_levels * b) m
        = (2 ^ (n_levels - 2) * a, 2 ^ (n_levels - 2) * b)).
Proof.
  intros Hm k.
  destruct (build_unet_chain_inv _ _ _ _ _ _ _ _ _ _ Hm) as (c & _ & Hl & Hs & _).
  assert (Hsize : forall hw,
             model_size hw m = halve (Nat.iter (S k) double (Nat.iter (S (S k)) halve hw))).
  { intros hw. rewrite Hs, Hl. apply unet_layers_size. }
  split; [ exact Hsize | ].
  intros Hn a b. rewrite Hsize.
  replace n_levels with (Z.of_nat (S (S k))) at 1 2 by (subst k; lia).
  rewrite iter_halve_pow2, iter_double_pow2. unfold halve. cbn [fst snd].
  rewrite Nat2Z.inj_succ, Z.pow_succ_r by lia.
  rewrite <- !Z.mul_assoc, !ceil_div_double.
  replace (n_levels - 2) with (Z.of_nat k) by (subst k; lia). reflexivity.
Qed.

(** The hypotheses of [unet_output_size] are met by the seven-level U-Net: a
    128x128 patch comes out 32x32. *)
Lemma unet_output_size_witness :
  exists m,
    build_unet channels_last_backend [128; 128] 3 3 64 "batch" 7 false 0.5 true = Ok m
    /\ model_size (128, 128) m = (32, 32).
Proof.
  eexists. split; [ vm_compute; reflexivity | ].
  apply (proj2 (unet_output_size channels_last_backend [128; 128] 3 3 64 "batch" 7 false
                  0.5 _ eq_refl) ltac:(lia) 1 1).
Defined.

Lemma unet_down_stage_convs (init_num_filters : Z) (use_bias : bool) (c : norm_class)
    (axis : Z) (idx : list Z) :
  flat_map conv_of (flat_map (unet_down_stage init_num_filters use_bias c axis) idx)
  = map (fun i => unet_conv use_bias (init_num_filters * Z.max (2 ^ i) 8)) idx
  /\ flat_map deconv_of (flat_map (unet_down_stage init_num_filters use_bias c axis) idx)
     = [].
Proof.
  induction idx as [ | i idx [IHc IHd]]; [ split; reflexivity | ].
  cbn [flat_map map]. rewrite !flat_map_app, IHc, IHd. split; reflexivity.
Qed.

Lemma unet_up_stage_convs (init_num_filters : Z) (use_bias : bool) (c : norm_class)
    (axis : Z) (use_dropout : bool) (rate : Q) (idx : list Z) :
  flat_map conv_of
    (flat_map (unet_up_stage init_num_filters use_bias c axis use_dropout rate) idx) = []
  /\ flat_map deconv_of
       (flat_map (unet_up_stage init_num_filters use_bias c axis use_dropout rate) idx)
     = map (fun i => unet_conv use_bias (init_num_filters * Z.max (2 ^ i) 8)) idx.
Proof.
  induction idx as [ | i idx [IHc IHd]]; [ split; reflexivity | ].
  cbn [flat_map map]. rewrite !flat_map_app, IHc, IHd.
  destruct use_dropout; split; reflexivity.
Qed.

(** X4.  Filter counts of a U-Net built with [autoencoder] on.  The encoder
    convolutions have [init], then [init * max(2 ** i, 8)] for
    [i = 1 .. n_levels - 2], then [init * max(2 ** n_levels - 1, 8)], and the
    last convolution has [output_nc].  The transposed convolutions after the
    first mirror the encoder loop: the same counts in reverse order.  The
    factor is a maximum, so for [init >= 0] no stage of either loop has fewer
    than [8 * init] filters, and from [i = 3] on the count is [init * 2 ** i],
    without a cap. *)
Theorem unet_filters (env : backend) (patch_size : list Z)
    (input_nc output_nc init_num_filters : Z) (norm_layer : string) (n_levels : Z)
    (use_dropout : bool) (rate : Q) (m : model) :
  build_unet env patch_size input_nc output_nc init_num_filters norm_layer n_levels
    use_dropout rate true = Ok m ->
  let stage := fun i => PyInt (init_num_filters * Z.max (2 ^ i) 8) in
  let levels := py_range 1 (n_levels - 1) in
  map c_filters (model_convs m)
  = [PyInt init_num_filters] ++ map stage levels
    ++ [PyInt (init_num_filters * Z.max (2 ^ n_levels - 1) 8); PyInt output_nc]
  /\ map c_filters (model_deconvs m)
     = PyInt (init_num_filters * Z.max (2 ^ n_levels - 2) 8) :: rev (map stage levels)
  /\ (forall i, In i levels ->
      (0 <= init_num_filters -> 8 * init_num_filters <= init_num_filters * Z.max (2 ^ i) 8)
      /\ (3 <= i -> stage i = PyInt (init_num_filters * 2 ^ i))).
Proof.
  intros Hm stage levels.
  destruct (build_unet_chain_inv _ _ _ _ _ _ _ _ _ _ Hm) as (c & _ & Hl & _).
  unfold model_convs, model_deconvs. rewrite Hl. unfold unet_layers.
  rewrite !flat_map_app.
  destruct (unet_down_stage_convs init_num_filters (String.eqb norm_layer "instance") c
              (channel_axis_of env) levels) as (Hdc & Hdd).
  destruct (unet_up_stage_convs init_num_filters (String.eqb norm_layer "instance") c
              (channel_axis_of env) use_dropout rate (rev levels)) as (Huc & Hud).
  fold levels. rewrite Hdc, Hdd, Huc, Hud. cbn [flat_map conv_of deconv_of app].
  repeat split.
  - cbn [map]. rewrite map_app, map_map. reflexivity.
  - cbn [map]. rewrite app_nil_r, map_map, map_rev. reflexivity.
  - intros Hinit. assert (8 <= Z.max (2 ^ i) 8) by lia. nia.
  - intros Hi. subst stage. cbv beta.
    assert (2 ^ 3 <= 2 ^ i) by (apply Z.pow_le_mono_r; lia).
    rewrite Z.max_l by lia. reflexivity.
Qed.

(** The hypothesis of [unet_filters] is met by the seven-level U-Net with 64
    initial filters. *)
Lemma unet_filters_witness :
  exists m,
    build_unet channels_last_backend [128; 128] 3 3 64 "batch" 7 false 0.5 true = Ok m
    /\ map c_filters (model_convs m)
       = map PyInt [64; 512; 512; 512; 1024; 2048; 8128; 3]
    /\ map c_filters (model_deconvs m)
       = map PyInt [8064; 2048; 1024; 512; 512; 512].
Proof.
  eexists. split; [ vm_compute; reflexivity | ].
  destruct (unet_filters channels_last_backend [128; 128] 3 3 64 "batch" 7 false 0.5 _
              eq_refl) as (Hc & Hd & _).
  split; [ exact Hc | exact Hd ].
Defined.

(** ** ResNet: what [build_resnet] comes to *)

(** X5.  [build_resnet] never returns a model.  With padding 'zero' it
    raises for every input: the [ImportError] of [get_norm_layer], or else
    the [ValueError] of its first padding layer, which comes before the first
    normalization layer, the residual blocks and the dropout flag.  With
    another padding it returns the [NotImplementedError] instance, unless
    [get_norm_layer] has raised. *)
Theorem build_resnet_never_returns_model (env : backend) (patch_size : list Z)
    (input_nc output_nc init_num_filters : Z) (norm_layer padding_layer : string)
    (n_blocks : Z) (use_dropout : bool) (rate : Q) :
  let r := build_resnet env patch_size input_nc output_nc init_num_filters norm_layer
             padding_layer n_blocks use_dropout rate in
  (forall m, r <> Ok (VModel m))
  /\ (forall e, get_norm_layer env norm_layer = Raise e -> r = Raise e)
  /\ (forall nv, get_norm_layer env norm_layer = Ok nv ->
      (padding_layer = "zero" -> exists msg, r = Raise (ValueError msg))
      /\ (padding_layer <> "zero" -> exists msg, r = Ok (VExc (NotImplementedError msg)))).
Proof.
  intros r; subst r.
  destruct (String.eqb_spec padding_layer "zero") as [-> | Hpad].
  - rewrite build_resnet_zero.
    destruct (get_norm_layer env norm_layer) as [nv | e].
    + split; [ discriminate | split; [ discriminate | ] ].
      intros _ _. split; [ eauto | congruence ].
    + split; [ discriminate | split; [ congruence | discriminate ] ].
  - unfold build_resnet. apply String.eqb_neq in Hpad.
    destruct (get_norm_layer env norm_layer) as [nv | e]; cbn [bind].
    + rewrite Hpad. split; [ discriminate | split; [ discriminate | ] ].
      intros _ _. split; [ | eauto ].
      intros ->. discriminate.
    + split; [ discriminate | split; [ congruence | discriminate ] ].
Qed.

(** [build_resnet_never_returns_model] at work on the nine-block generator
    with the default hyperparameters. *)
Lemma build_resnet_never_returns_model_witness :
  exists msg,
    build_resnet channels_last_backend [256; 256] 3 3 64 "batch" "zero" 9 false 0.5
    = Raise (ValueError msg).
Proof.
  destruct (build_resnet_never_returns_model channels_last_backend [256; 256] 3 3 64
              "batch" "zero" 9 false 0.5) as (_ & _ & H).
  exact (proj1 (H (NormClass BatchNormalization) eq_refl) eq_refl).
Defined.

(** ** Discriminators: when they return, their size *)


(** X9.  For an integer [n_layers >= -1], [build_nlayer_discriminator]
    returns a model exactly when [get_norm_layer] yields a layer class and
    [n_layers >= 1]: every PatchGAN depth is built, the pixel-wise (0) and
    the image-wise (-1) branch never are.  (Below -1 the builder hands the
    framework a fractional filter count, see
    [negative_n_layers_fractional_filters].) *)
Theorem build_nlayer_discriminator_returns_iff (env : backend) (patch_size : list Z)
    (input_nc init_num_filters n_layers : Z) (norm_layer : string)
    (use_sigmoid use_dropout : bool) (rate : Q) :
  -1 <= n_layers ->
  (exists m, build_nlayer_discriminator env patch_size input_nc init_num_filters n_layers
               norm_layer use_sigmoid use_dropout rate = Ok m)
  <-> (exists c, get_norm_layer env norm_layer = Ok (NormClass c)) /\ 1 <= n_layers.
Proof.
  intros Hn. split.
  - intros (m & Hm).
    destruct (build_nlayer_discriminator_returned _ _ _ _ _ _ _ _ _ _ Hm)
      as (H0 & H1 & c & Hc & _).
    split; [ eauto | lia ].
  - intros ((c & Hc) & Hpos).
    rewrite (build_nlayer_discriminator_patch env patch_size input_nc init_num_filters
               n_layers norm_layer use_sigmoid use_dropout rate c Hc) by lia.
    eauto.
Qed.

(** The hypothesis of [build_nlayer_discriminator_returns_iff] is met by the
    default depth: under instance normalization with [keras_contrib] at hand
    the three-layer PatchGAN is returned. *)
Lemma build_nlayer_discriminator_returns_iff_witness :
  exists m,
    build_nlayer_discriminator channels_last_backend [256; 256] 3 64 3 "instance" false
      false 0.5 = Ok m.
Proof.
  apply (proj2 (build_nlayer_discriminator_returns_iff channels_last_backend [256; 256] 3
                  64 3 "instance" false false 0.5 ltac:(lia))).
  split; [ exists InstanceNormalization; reflexivity | lia ].
Defined.

Lemma model_layers_app (xs ys : list seq_item) :
  model_layers (Sequential (xs ++ ys))
  = model_layers (Sequential xs) ++ model_layers (Sequential ys).
Proof. cbn [model_layers]. apply flat_map_app. Qed.

Lemma layer_size_disc_conv (use_bias : bool) (f : pynum) (hw : Z * Z) :
  layer_size (Conv2D (disc_conv (4, 4) use_bias f (Some (2, 2)))) hw = halve hw
  /\ layer_size (Conv2D (disc_conv (4, 4) use_bias f None)) hw = hw.
Proof.
  destruct hw as [h w]. split; [ reflexivity | ].
  unfold layer_size, disc_conv, same_padding, strides_of.
  cbn [c_kernel_size c_strides c_padding String.eqb Ascii.eqb Bool.eqb].
  now rewrite !ceil_div_1.
Qed.

Lemma nlayer_stages_size (init_num_filters : Z) (use_bias : bool) (c : norm_class)
    (axis : Z) (use_dropout : bool) (rate : Q) (idx : list Z) (hw : Z * Z) :
  layers_size hw
    (model_layers (Sequential (flat_map (nlayer_stage init_num_filters (4, 4) use_bias c
                                           axis use_dropout rate) idx)))
  = Nat.iter (List.length idx) halve hw
  /\ List.length
       (filter is_downsampling
          (model_layers (Sequential (flat_map (nlayer_stage init_num_filters (4, 4)
                                                 use_bias c axis use_dropout rate) idx))))
     = List.length idx.
Proof.
  revert hw; induction idx as [ | n idx IH]; intros hw; [ split; reflexivity | ].
  cbn [flat_map]. rewrite model_layers_app, layers_size_app, filter_app, length_app.
  assert (Hstage : layers_size hw
                     (model_layers (Sequential (nlayer_stage init_num_filters (4, 4)
                                                  use_bias c axis use_dropout rate n)))
                   = halve hw)
    by (destruct hw, use_dropout; reflexivity).
  rewrite Hstage. destruct (IH (halve hw)) as (-> & ->). split.
  - cbn [List.length]. symmetry. apply Nat.iter_succ_r.
  - destruct use_dropout; reflexivity.
Qed.

(** X10.  For [n_layers >= 0] a returned discriminator holds exactly
    [n_layers] stride-2 convolutions, and its output map has the height and
    width of the input halved [n_layers] times, rounding up: the two last
    convolutions of a PatchGAN keep the size.  (For [n_layers = 0] nothing is
    returned, see [build_nlayer_discriminator_pixel_raises].) *)
Theorem discriminator_output_size (env : backend) (patch_size : list Z)
    (input_nc init_num_filters n_layers : Z) (norm_layer : string)
    (use_sigmoid use_dropout : bool) (rate : Q) (m : model) :
  0 <= n_layers ->
  build_nlayer_discriminator env patch_size input_nc init_num_filters n_layers norm_layer
    use_sigmoid use_dropout rate = Ok m ->
  count_layers is_downsampling m = Z.to_nat n_layers
  /\ forall hw, model_size hw m = Nat.iter (Z.to_nat n_layers) halve hw.
Proof.
  intros Hn Hm.
  destruct (build_nlayer_discriminator_returned _ _ _ _ _ _ _ _ _ _ Hm)
    as (H0 & _ & c & Hc & ->).
  unfold count_layers, patchgan_items. cbn [model_size].
  rewrite !model_layers_app.
  assert (Hlen : S (List.length (py_range 1 n_layers)) = Z.to_nat n_layers)
    by (rewrite py_range_length; lia).
  split.
  - rewrite !filter_app, !length_app.
    rewrite (proj2 (nlayer_stages_size _ _ _ _ _ _ _ (0, 0))), <- Hlen.
    cbn. lia.
  - intros hw. rewrite !layers_size_app.
    set (first := layers_size hw _).
    assert (Hfirst : first = halve hw) by (subst first; destruct hw; reflexivity).
    rewrite Hfirst, (proj1 (nlayer_stages_size _ _ _ _ _ _ _ _)).
    rewrite <- Hlen, Nat.iter_succ_r.
    set (s := Nat.iter _ halve (halve hw)).
    unfold layers_size. cbn [model_layers flat_map layer_calls app fold_left].
    rewrite (proj2 (layer_size_disc_conv _ _ s)).
    destruct s as [h w]. unfold layer_size at 1, final_conv, same_padding, strides_of.
    cbn [c_kernel_size c_strides c_padding String.eqb Ascii.eqb Bool.eqb].
    cbn [layer_size]. now rewrite !ceil_div_1.
Qed.

(** The hypotheses of [discriminator_output_size] are met by the default
    PatchGAN: three stride-2 convolutions, 256x256 down to 32x32. *)
Lemma discriminator_output_size_witness :
  exists m,
    build_nlayer_discriminator channels_last_backend [256; 256] 3 64 3 "batch" false false
      0.5 = Ok m
    /\ count_layers is_downsampling m = 3%nat
    /\ model_size (256, 256) m = (32, 32).
Proof.
  eexists. split; [ vm_compute; reflexivity | ].
  destruct (discriminator_output_size channels_last_backend [256; 256] 3 64 3 "batch"
              false false 0.5 _ ltac:(lia) eq_refl) as (Hcount & Hsize).
  split; [ exact Hcount | exact (Hsize (256, 256)) ].
Defined.

(** X11.  For [n_layers <= -2] the loop of [build_nlayer_discriminator] does
    not run and [2 ** n_layers] is a float: a returned model has exactly
    three convolutions, and the filter count handed to the middle one is the
    fraction [init_num_filters * 2 ** n_layers], not an integer. *)
Theorem negative_n_layers_fractional_filters (env : backend) (patch_size : list Z)
    (input_nc init_num_filters n_layers : Z) (norm_layer : string)
    (use_sigmoid use_dropout : bool) (rate : Q) (m : model) :
  n_layers <= -2 ->
  build_nlayer_discriminator env patch_size input_nc init_num_filters n_layers norm_layer
    use_sigmoid use_dropout rate = Ok m ->
  map c_filters (model_convs m)
  = [PyInt init_num_filters; PyFloat (scaled_pow2 init_num_filters n_layers); PyInt 1].
Proof.
  intros Hn Hm.
  destruct (build_nlayer_discriminator_ok_inv _ _ _ _ _ _ _ _ _ _ Hm) as (c & Hc).
  rewrite (build_nlayer_discriminator_patch env patch_size input_nc init_num_filters
             n_layers norm_layer use_sigmoid use_dropout rate c Hc) in Hm by lia.
  injection Hm as <-. unfold patchgan_items.
  rewrite py_range_empty by lia. unfold times_min_pow2.
  destruct (Z.ltb_spec n_layers 0) as [_ | ]; [ reflexivity | lia ].
Qed.

(** The hypotheses of [negative_n_layers_fractional_filters] are met by
    [n_layers = -2] with 64 initial filters. *)
Lemma negative_n_layers_fractional_filters_witness :
  exists m,
    build_nlayer_discriminator channels_last_backend [256; 256] 3 64 (-2) "batch" false
      false 0.5 = Ok m
    /\ map c_filters (model_convs m) = [PyInt 64; PyFloat (scaled_pow2 64 (-2)); PyInt 1].
Proof.
  eexists. split; [ vm_compute; reflexivity | ].
  apply (negative_n_layers_fractional_filters channels_last_backend [256; 256] 3 64 (-2)
           "batch" false false 0.5 _ ltac:(lia) eq_refl).
Defined.

(** ** Errors of the normalization choice *)



(** X13.  With 'instance' normalization and [keras_contrib] missing, the
    [ImportError] of [get_norm_layer] comes before every other outcome of the
    three builders: it is raised whatever the sizes, an unknown padding, the
    dropout flag, [autoencoder] or [n_layers] (-1 included), and it is what
    [build_generator_model] raises for every supported model name; only an
    unsupported model name is reported first. *)
Theorem missing_keras_contrib_raises_first (env : backend) (patch_size : list Z)
    (input_nc output_nc init_num_filters n_levels n_blocks n_layers : Z)
    (model_name padding_layer : string) (use_dropout use_sigmoid autoencoder : bool)
    (rate : Q) :
  keras_contrib_installed env = false ->
  exists msg,
    build_unet env patch_size input_nc output_nc init_num_filters "instance" n_levels
      use_dropout rate autoencoder = Raise (ImportError msg)
    /\ build_resnet env patch_size input_nc output_nc init_num_filters "instance"
         padding_layer n_blocks use_dropout rate = Raise (ImportError msg)
    /\ build_nlayer_discriminator env patch_size input_nc init_num_filters n_layers
         "instance" use_sigmoid use_dropout rate = Raise (ImportError msg)
    /\ (In model_name generator_names ->
        build_generator_model env patch_size input_nc output_nc init_num_filters
          model_name "instance" use_dropout = Raise (ImportError msg))
    /\ (~ In model_name generator_names ->
        exists msg',
          build_generator_model env patch_size input_nc output_nc init_num_filters
            model_name "instance" use_dropout = Raise (NotImplementedError msg')).
Proof.
  intros Hk.
  assert (Hnorm : get_norm_layer env "instance"
                  = Raise (ImportError
                      ("keras_contrib is required to use InstanceNormalization layers. Install keras_contrib or "
                       ++ "switch normalization to " ++ dquote ++ "batch" ++ dquote
                       ++ ".")%string))
    by (rewrite get_norm_layer_instance, Hk; reflexivity).
  eexists. split; [ | split; [ | split; [ | split ] ] ].
  - unfold build_unet. rewrite Hnorm. reflexivity.
  - unfold build_resnet. rewrite Hnorm. reflexivity.
  - unfold build_nlayer_discriminator. rewrite Hnorm. reflexivity.
  - intros Hin.
    pose proof (generator_outcome env patch_size input_nc output_nc init_num_filters
                  model_name "instance" use_dropout Hin) as Hout.
    cbv zeta in Hout. rewrite Hnorm in Hout. exact Hout.
  - intros Hnot. rewrite generator_unknown_name by assumption. eauto.
Qed.

(** The hypothesis of [missing_keras_contrib_raises_first] is met by a
    backend without [keras_contrib], here on the image-wise discriminator. *)
Lemma missing_keras_contrib_raises_first_witness :
  exists msg,
    build_nlayer_discriminator no_contrib_backend [256; 256] 3 64 (-1) "instance" false
      false 0.5 = Raise (ImportError msg).
Proof.
  destruct (missing_keras_contrib_raises_first no_contrib_backend [256; 256] 3 3 64 7 6
              (-1) "unet_128" "zero" false false true 0.5 eq_refl)
    as (msg & _ & _ & Hdis & _).
  exists msg. exact Hdis.
Defined.

(** ** Data format *)

Lemma unet_layer_axis (use_bias : bool) (c : norm_class) (axis : Z) (rate : Q) (l : layer) :
  unet_layer use_bias c axis rate l -> norm_axis_is axis l.
Proof. destruct 1; simpl; auto. Qed.

Lemma generator_model_input (env : backend) (patch_size : list Z)
    (input_nc output_nc init_num_filters : Z) (model_name norm_layer : string)
    (use_dropout : bool) (m : model) :
  build_generator_model env patch_size input_nc output_nc init_num_filters model_name
    norm_layer use_dropout = Ok (VModel m) ->
  model_input m = Some (Input (input_shape_of env patch_size input_nc) (Some "input1")).
Proof.
  intros Hgen.
  destruct (in_dec string_dec model_name generator_names) as [Hin | Hnot];
    [ | rewrite generator_unknown_name in Hgen by assumption; discriminate ].
  simpl in Hin. destruct Hin as [<- | [<- | [<- | [<- | []]]]];
    unfold build_generator_model in Hgen; simpl String.eqb in Hgen; cbv iota in Hgen.
  1, 2: apply bind_ok_inv in Hgen; destruct Hgen as (g & Hg & Hm); injection Hm as <-;
    apply build_unet_chain_inv in Hg; destruct Hg as (c & _ & _ & _ & Hin); exact Hin.
  1, 2: exfalso; rewrite build_resnet_zero in Hgen;
    destruct (get_norm_layer env norm_layer); discriminate.
Qed.

(** X14.  Every returned generator or discriminator follows the backend's
    data format: its input has shape [(input_nc,) + patch_size] under
    'channels_first' and [patch_size + (input_nc,)] under any other format,
    and every normalization layer in it normalizes over axis 1, resp. -1. *)
Theorem data_format_conventions (env : backend) (patch_size : list Z)
    (input_nc output_nc init_num_filters n_layers : Z) (model_name norm_layer : string)
    (use_dropout use_sigmoid : bool) (m : model) :
  build_generator_model env patch_size input_nc output_nc init_num_filters model_name
    norm_layer use_dropout = Ok (VModel m)
  \/ build_discriminator_model env patch_size input_nc init_num_filters n_layers norm_layer
       use_sigmoid = Ok m ->
  let channels_first := String.eqb (image_data_format env) "channels_first" in
  (exists name,
      model_input m
      = Some (Input (if channels_first then input_nc :: patch_size
                     else patch_size ++ [input_nc]) name))
  /\ Forall_model (norm_axis_is (if channels_first then 1 else -1)) m.
Proof.
  intros [Hgen | Hdis] channels_first.
  - split.
    + exists (Some "input1"). now rewrite (generator_model_input _ _ _ _ _ _ _ _ _ Hgen).
    + destruct (generator_model_layers _ _ _ _ _ _ _ _ _ Hgen) as (c & _ & _ & Hl).
      eapply Forall_model_impl; [ | exact Hl ]. intros l Hl'.
      apply (unet_layer_axis _ _ _ _ _ Hl').
  - unfold build_discriminator_model in Hdis.
    destruct (build_nlayer_discriminator_returned _ _ _ _ _ _ _ _ _ _ Hdis)
      as (_ & _ & c & _ & ->).
    unfold patchgan_items.
    split; [ exists None; reflexivity | ].
    simpl. each_item. apply Forall_app; split;
      [ apply Forall_item_stage; simpl; auto | each_item ].
Qed.

(** The hypothesis of [data_format_conventions] is met by the 'unet_128'
    generator under a channels-first backend. *)
Lemma data_format_conventions_witness :
  exists m name,
    build_generator_model
      {| image_data_format := "channels_first"; keras_contrib_installed := true |}
      [128; 128] 3 3 64 "unet_128" "batch" false = Ok (VModel m)
    /\ model_input m = Some (Input [3; 128; 128] name)
    /\ Forall_model (norm_axis_is 1) m.
Proof.
  destruct (build_unet_ok
              {| image_data_format := "channels_first"; keras_contrib_installed := true |}
              [128; 128] 3 3 64 "batch" 7 false 0.5 BatchNormalization eq_refl)
    as (deconv & Hbuild & _).
  match type of Hbuild with _ = Ok ?m0 =>
    assert (Hgen : build_generator_model
                     {| image_data_format := "channels_first";
                        keras_contrib_installed := true |}
                     [128; 128] 3 3 64 "unet_128" "batch" false = Ok (VModel m0))
      by (unfold build_generator_model; simpl String.eqb; cbv iota;
          rewrite Hbuild; reflexivity);
    destruct (data_format_conventions _ [128; 128] 3 3 64 3 "unet_128" "batch" false false
                m0 (or_introl Hgen)) as ((name & Hin) & Haxis);
    exists m0, name
  end.
  split; [ exact Hgen | split; [ exact Hin | exact Haxis ] ].
Defined.

(** ** Where dropout can occur, what a generator ends in *)

Lemma nlayer_stages_no_dropout (init_num_filters : Z) (kernel_size : Z * Z)
    (use_bias : bool) (c : norm_class) (axis : Z) (rate : Q) (idx : list Z) :
  Forall (Forall_item no_dropout)
    (flat_map (nlayer_stage init_num_filters kernel_size use_bias c axis false rate) idx).
Proof.
  induction idx as [ | n idx IH]; [ constructor | ].
  cbn [flat_map]. apply Forall_app; split; [ | exact IH ].
  unfold nlayer_stage. each_item; reflexivity.
Qed.

(** X15.  Through the two entry points dropout is reachable in the U-Net
    generators only: no generator returned for 'resnet_6blocks' or
    'resnet_9blocks' and no discriminator returned by
    [build_discriminator_model] holds a [Dropout] layer, whatever the flags;
    [build_discriminator_model] has no dropout argument to forward. *)
Theorem dropout_only_in_unet (env : backend) (patch_size : list Z)
    (input_nc output_nc init_num_filters n_layers : Z) (model_name norm_layer : string)
    (use_dropout use_sigmoid : bool) (m : model) :
  (build_generator_model env patch_size input_nc output_nc init_num_filters model_name
     norm_layer use_dropout = Ok (VModel m) /\ is_resnet_name model_name = true)
  \/ build_discriminator_model env patch_size input_nc init_num_filters n_layers norm_layer
       use_sigmoid = Ok m ->
  Forall_model no_dropout m.
Proof.
  intros [[Hgen Hres] | Hdis].
  - destruct (generator_model_layers _ _ _ _ _ _ _ _ _ Hgen) as (c & _ & Hname & _).
    destruct Hname as [-> | ->]; discriminate.
  - unfold build_discriminator_model in Hdis.
    destruct (build_nlayer_discriminator_returned _ _ _ _ _ _ _ _ _ _ Hdis)
      as (_ & _ & c & _ & ->).
    unfold patchgan_items.
    simpl. each_item; try reflexivity. apply Forall_app; split;
      [ apply nlayer_stages_no_dropout | each_item; reflexivity ].
Qed.

(** The hypothesis of [dropout_only_in_unet] is met by the default
    discriminator. *)
Lemma dropout_only_in_unet_witness :
  exists m,
    build_discriminator_model channels_last_backend [256; 256] 3 64 3 "batch" false = Ok m
    /\ Forall_model no_dropout m.
Proof.
  eexists. split; [ vm_compute; reflexivity | ].
  apply (dropout_only_in_unet channels_last_backend [256; 256] 3 3 64 3 "unet_128" "batch"
           false false).
  right. vm_compute; reflexivity.
Defined.

(** X16.  Every generator [build_generator_model] returns ends in a
    convolution with [output_nc] filters, created without an activation,
    followed by a tanh activation. *)
Theorem generator_output_layer (env : backend) (patch_size : list Z)
    (input_nc output_nc init_num_filters : Z) (model_name norm_layer : string)
    (use_dropout : bool) (m : model) :
  build_generator_model env patch_size input_nc output_nc init_num_filters model_name
    norm_layer use_dropout = Ok (VModel m) ->
  exists inputs a x,
    m = Model inputs (Call (Activation "tanh") (Call (Conv2D a) x))
    /\ c_filters a = PyInt output_nc
    /\ c_activation a = None.
Proof.
  intros Hgen.
  destruct (in_dec string_dec model_name generator_names) as [Hin | Hnot];
    [ | rewrite generator_unknown_name in Hgen by assumption; discriminate ].
  simpl in Hin. destruct Hin as [<- | [<- | [<- | [<- | []]]]];
    unfold build_generator_model in Hgen; simpl String.eqb in Hgen; cbv iota in Hgen.
  1, 2: apply bind_ok_inv in Hgen; destruct Hgen as (g & Hg & Hm); injection Hm as <-;
    destruct (build_unet_ok_inv _ _ _ _ _ _ _ _ _ _ _ Hg) as (c & Hc);
    match type of Hg with build_unet ?e ?p ?i ?o ?f ?n ?lv ?d ?r true = _ =>
      destruct (build_unet_ok e p i o f n lv d r c Hc) as (dc & Heq & _)
    end;
    rewrite Heq in Hg; injection Hg as <-; do 3 eexists; repeat split.
  1, 2: exfalso; rewrite build_resnet_zero in Hgen;
    destruct (get_norm_layer env norm_layer); discriminate.
Qed.

(** The hypothesis of [generator_output_layer] is met by the 'unet_256'
    generator with one output channel. *)
Lemma generator_output_layer_witness :
  exists inputs a x,
    build_generator_model channels_last_backend [256; 256] 3 1 64 "unet_256" "batch"
      false = Ok (VModel (Model inputs (Call (Activation "tanh") (Call (Conv2D a) x))))
    /\ c_filters a = PyInt 1.
Proof.
  destruct (build_unet_ok channels_last_backend [256; 256] 3 1 64 "batch" 8 false 0.5
              BatchNormalization eq_refl) as (deconv & Hbuild & _).
  match type of Hbuild with _ = Ok ?m0 =>
    assert (Hgen : build_generator_model channels_last_backend [256; 256] 3 1 64
                     "unet_256" "batch" false = Ok (VModel m0))
      by (unfold build_generator_model; simpl String.eqb; cbv iota;
          rewrite Hbuild; reflexivity);
    destruct (generator_output_layer channels_last_backend [256; 256] 3 1 64
                "unet_256" "batch" false m0 Hgen) as (inputs & a & x & Hm & Hf & _)
  end.
  exists inputs, a, x. split; [ | exact Hf ].
  rewrite Hgen. now rewrite Hm.
Defined.
